(** * PyCampus: the CampusNet API client ([cnapi/cnapi.py])

    A shallow embedding of the client's response handling and session
    state, and the properties of its specification.

    Conventions of the embedding:
    - a Python text is represented by the byte string of its UTF-8
      encoding, so [encode('utf-8')] is the identity on representations;
      comparing with the ASCII literal ['Fault'] gives the same answer on
      bytes and on code points;
    - [None] against a value is [option]; a raised exception is the
      [Raise] branch of [result];
    - a method of a class is a computation in the state monad [M] over the
      state it can touch (the object for the extractors, the session and
      the outside world for the facade);
    - the XML parser and the HTTP transport are libraries outside the
      repository: they are parameters of the development. *)

From Stdlib Require Import Ascii String.
From stdpp Require Import base option list strings gmap.

Set Warnings "-register-all".

Local Open Scope string_scope.
Local Open Scope nat_scope.

(** ** Python results and exceptions *)

Inductive exception : Type :=
  | ParseError                      (* xml.etree.ElementTree.ParseError *)
  | KeyError (key : string)         (* d[key] on a dict without [key] *)
  | AttributeError (name : string)  (* an attribute read on [None] *)
  | RequestException (msg : string) (* a failure of the HTTP transport *).

Inductive result (A : Type) : Type :=
  | Return (a : A)
  | Raise (e : exception).
Arguments Return {A} a.
Arguments Raise {A} e.

Definition result_bind {A B} (k : A → result B) (r : result A) : result B :=
  match r with
  | Return a => k a
  | Raise e => Raise e
  end.

Definition result_map {A B} (f : A → B) (r : result A) : result B :=
  match r with
  | Return a => Return (f a)
  | Raise e => Raise e
  end.

#[export] Instance result_fmap : FMap result := @result_map.
#[export] Instance result_ret : MRet result := @Return.
#[export] Instance result_mbind : MBind result := @result_bind.

(** A method over a state [St]: it returns or raises, and leaves a state. *)
Definition M (St A : Type) : Type := St → result A * St.

Definition ret {St A} (a : A) : M St A := λ s, (Return a, s).
Definition bind {St A B} (k : A → M St B) (c : M St A) : M St B :=
  λ s, match c s with
       | (Return a, s') => k a s'
       | (Raise e, s') => (Raise e, s')
       end.
Definition get_state {St} : M St St := λ s, (Return s, s).
Definition lift_result {St A} (r : result A) : M St A := λ s, (r, s).

#[export] Instance M_ret {St} : MRet (M St) := @ret St.
#[export] Instance M_bind {St} : MBind (M St) := @bind St.

(** Running a method of the world inside a method of (object, world). *)
Definition on_snd {S1 S2 A} (c : M S2 A) : M (S1 * S2) A :=
  λ s, let '(r, s2) := c s.2 in (r, (s.1, s2)).

(** [Class(args).method()]: a method run on a fresh object, which is
    dropped afterwards. *)
Definition on_new {St O A} (o : O) (c : M O A) : M St A :=
  λ s, ((c o).1, s).

(** [[f(x) for x in l]]: the items in order, abandoned at the first one
    that raises. *)
Fixpoint list_comprehension {A B} (f : A → result B) (l : list A)
  : result (list B) :=
  match l with
  | [] => Return []
  | x :: rest =>
      y ← f x;
      ys ← list_comprehension f rest;
      mret (y :: ys)
  end.

(** [d[key]] on a Python [dict] with text keys and values. *)
Definition getitem (d : gmap string string) (key : string) : result string :=
  match d !! key with
  | Some v => Return v
  | None => Raise (KeyError key)
  end.

(** [s[-n:]]: the last [n] characters of [s], all of [s] when it is
    shorter. *)
Definition slice_last (n : nat) (s : string) : string :=
  String.substring (String.length s - n) n s.

(** [len(s)], the number of characters of a text, on its UTF-8
    representation: the bytes that begin a character, that is all but
    the continuation bytes 0x80 to 0xBF. *)
Definition is_continuation (c : ascii) : bool :=
  Nat.leb 128 (nat_of_ascii c) && Nat.ltb (nat_of_ascii c) 192.

Fixpoint text_len (s : string) : nat :=
  match s with
  | EmptyString => 0
  | String c rest => (if is_continuation c then 0 else 1) + text_len rest
  end.

(** ** The element tree ([xml.etree.ElementTree]) *)

Module ElementTree.

(** An [Element]: its tag, its attribute dictionary and its child
    elements in document order.  Text and tail are never read by the
    client and are left out. *)
Inductive Element : Type :=
  mkElement { tag : string;
              attrib : gmap string string;
              children : list Element }.

(** The path language of the library, for the paths the client uses: tag
    names separated by "/".  One step of a path: the children, with the
    given tag, of every element of the current result, in order. *)
Definition select_child (name : string) (res : list Element) : list Element :=
  flat_map (λ elem, filter (λ e, tag e = name) (children elem)) res.

(** [path.split('/')] for a path made of tag names. *)
Fixpoint split_path_aux (acc : string) (path : string) : list string :=
  match path with
  | EmptyString => [String.rev acc]
  | String c rest =>
      if Ascii.eqb c "/"%char then String.rev acc :: split_path_aux EmptyString rest
      else split_path_aux (String c acc) rest
  end.
Definition split_path (path : string) : list string := split_path_aux EmptyString path.

(** [iterfind]: the steps of the path applied in turn from [[elem]]. *)
Definition iterfind (elem : Element) (path : string) : list Element :=
  fold_left (λ res name, select_child name res) (split_path path) [elem].

(** [Element.findall(path)] and [Element.find(path)]. *)
Definition findall (elem : Element) (path : string) : list Element :=
  iterfind elem path.
Definition find (elem : Element) (path : string) : option Element :=
  head (iterfind elem path).

End ElementTree.
Import ElementTree.

(** ** A reference parser for a fragment of XML

    [fromstring] of the library is a parameter below.  To run the client
    on concrete documents the parameter is instantiated with this parser
    of a fragment of XML: start tags, end tags and empty-element tags with
    plain names, attributes with quoted values, and character data (which
    the client never reads).  Everything else (declarations, comments,
    entity references, namespaces, bytes outside printable ASCII) is
    refused with [ParseError]; on the documents it accepts it builds the
    tree the library builds. *)

Module XmlFragment.

Inductive token : Type :=
  | TStart (name : string) (attrs : list (string * string))
  | TEmpty (name : string) (attrs : list (string * string))
  | TEnd (name : string)
  | TChars.

Inductive lex_state : Type :=
  | InText
  | AfterLt
  | InEndName (name : string)
  | AfterEndName (name : string)
  | InStartName (name : string)
  | InTag (name : string) (attrs : list (string * string)) (sep : bool)
  | InAttrName (name : string) (attrs : list (string * string)) (a : string)
  | AfterAttrName (name : string) (attrs : list (string * string)) (a : string)
  | AfterEq (name : string) (attrs : list (string * string)) (a : string)
  | InAttrValue (name : string) (attrs : list (string * string)) (a : string)
                (quote : ascii) (v : string)
  | AfterSlash (name : string) (attrs : list (string * string)).

(** The double quote character. *)
Definition dquote : ascii := ascii_of_nat 34.

Definition between (lo hi : nat) (c : ascii) : bool :=
  Nat.leb lo (nat_of_ascii c) && Nat.leb (nat_of_ascii c) hi.
Definition is_space (c : ascii) : bool :=
  Ascii.eqb c " " || between 9 10 c || between 13 13 c.
Definition is_plain (c : ascii) : bool := between 32 126 c || is_space c.
Definition is_name_start (c : ascii) : bool :=
  between 65 90 c || between 97 122 c || Ascii.eqb c "_".
Definition is_name_char (c : ascii) : bool :=
  is_name_start c || between 48 57 c || Ascii.eqb c "-" || Ascii.eqb c ".".

Definition lex_step (st : lex_state) (c : ascii)
  : option (lex_state * list token) :=
  if negb (is_plain c) then None else
  match st with
  | InText =>
      if Ascii.eqb c "<" then Some (AfterLt, [])
      else if Ascii.eqb c "&" || Ascii.eqb c ">" then None
      else if is_space c then Some (InText, [])
      else Some (InText, [TChars])
  | AfterLt =>
      if Ascii.eqb c "/" then Some (InEndName EmptyString, [])
      else if is_name_start c then Some (InStartName (String c EmptyString), [])
      else None
  | InEndName n =>
      if String.eqb n EmptyString then
        if is_name_start c then Some (InEndName (String c n), []) else None
      else if is_name_char c then Some (InEndName (String c n), [])
      else if is_space c then Some (AfterEndName (String.rev n), [])
      else if Ascii.eqb c ">" then Some (InText, [TEnd (String.rev n)])
      else None
  | AfterEndName n =>
      if is_space c then Some (AfterEndName n, [])
      else if Ascii.eqb c ">" then Some (InText, [TEnd n])
      else None
  | InStartName n =>
      if is_name_char c then Some (InStartName (String c n), [])
      else if is_space c then Some (InTag (String.rev n) [] true, [])
      else if Ascii.eqb c "/" then Some (AfterSlash (String.rev n) [], [])
      else if Ascii.eqb c ">" then Some (InText, [TStart (String.rev n) []])
      else None
  | InTag n attrs sep =>
      if is_space c then Some (InTag n attrs true, [])
      else if Ascii.eqb c "/" then Some (AfterSlash n attrs, [])
      else if Ascii.eqb c ">" then Some (InText, [TStart n (rev attrs)])
      else if sep && is_name_start c then Some (InAttrName n attrs (String c EmptyString), [])
      else None
  | InAttrName n attrs a =>
      if is_name_char c then Some (InAttrName n attrs (String c a), [])
      else if is_space c then Some (AfterAttrName n attrs (String.rev a), [])
      else if Ascii.eqb c "=" then Some (AfterEq n attrs (String.rev a), [])
      else None
  | AfterAttrName n attrs a =>
      if is_space c then Some (AfterAttrName n attrs a, [])
      else if Ascii.eqb c "=" then Some (AfterEq n attrs a, [])
      else None
  | AfterEq n attrs a =>
      if is_space c then Some (AfterEq n attrs a, [])
      else if Ascii.eqb c dquote || Ascii.eqb c "'"
      then Some (InAttrValue n attrs a c EmptyString, [])
      else None
  | InAttrValue n attrs a q v =>
      if Ascii.eqb c q then Some (InTag n ((a, String.rev v) :: attrs) false, [])
      else if Ascii.eqb c "<" || Ascii.eqb c "&" then None
      else if is_space c && negb (Ascii.eqb c " ") then None
      else Some (InAttrValue n attrs a q (String c v), [])
  | AfterSlash n attrs =>
      if Ascii.eqb c ">" then Some (InText, [TEmpty n (rev attrs)]) else None
  end.

Fixpoint lex (st : lex_state) (s : string) : option (list token) :=
  match s with
  | EmptyString => match st with InText => Some [] | _ => None end
  | String c rest =>
      match lex_step st c with
      | Some (st', out) => app out <$> lex st' rest
      | None => None
      end
  end.

(** The attribute dictionary of a tag: no name twice, no namespace
    declaration. *)
Fixpoint attrs_dict (attrs : list (string * string))
  : option (gmap string string) :=
  match attrs with
  | [] => Some ∅
  | (a, v) :: rest =>
      match attrs_dict rest with
      | Some d =>
          if String.eqb a "xmlns" then None
          else match d !! a with
               | Some _ => None
               | None => Some (<[a := v]> d)
               end
      | None => None
      end
  end.

(** An element being read: its tag, attributes and the children read so
    far, last first. *)
Record frame : Type :=
  mkFrame { f_tag : string;
            f_attrib : gmap string string;
            f_kids : list Element }.

Definition close_frame (f : frame) : Element :=
  mkElement (f_tag f) (f_attrib f) (rev (f_kids f)).

Definition attach (e : Element) (stack : list frame) (root : option Element)
  : option (list frame * option Element) :=
  match stack with
  | [] => match root with
          | None => Some ([], Some e)
          | Some _ => None
          end
  | f :: fs => Some (mkFrame (f_tag f) (f_attrib f) (e :: f_kids f) :: fs, root)
  end.

Fixpoint build (toks : list token) (stack : list frame)
               (root : option Element) : option Element :=
  match toks with
  | [] => match stack with [] => root | _ :: _ => None end
  | TChars :: rest =>
      match stack with [] => None | _ :: _ => build rest stack root end
  | TStart n attrs :: rest =>
      match attrs_dict attrs, stack, root with
      | None, _, _ => None
      | Some _, [], Some _ => None
      | Some d, _, _ => build rest (mkFrame n d [] :: stack) root
      end
  | TEmpty n attrs :: rest =>
      match attrs_dict attrs with
      | None => None
      | Some d =>
          match attach (mkElement n d []) stack root with
          | Some (stack', root') => build rest stack' root'
          | None => None
          end
      end
  | TEnd n :: rest =>
      match stack with
      | [] => None
      | f :: fs =>
          if String.eqb (f_tag f) n then
            match attach (close_frame f) fs root with
            | Some (stack', root') => build rest stack' root'
            | None => None
            end
          else None
      end
  end.

Definition fromstring (text : string) : result Element :=
  match lex InText text with
  | Some toks =>
      match build toks [] None with
      | Some root => Return root
      | None => Raise ParseError
      end
  | None => Raise ParseError
  end.

End XmlFragment.

(** ** The HTTP transport ([requests]) *)

Module requests.
(** A response; the client reads its [text] only. *)
Record Response : Type := mkResponse { text : string }.
End requests.

(** ** Records returned by the client *)

Record Student : Type :=
  mkStudent { first_name : string; last_name : string; email : string }.

Record Course : Type :=
  mkCourse { title : string; course_number : string }.

Record ExamResult : Type :=
  mkExamResult { course : Course;
                 ects_points : string;
                 grade : string;
                 period : string;
                 year : string }.

(** ** The extractors *)

Module AbstractXmlInfoExtractor.

Record t : Type := __init__ { response_text : string }.

(** [text.encode('utf-8')], on the UTF-8 representation of texts. *)
Definition encode_utf8 (text : string) : string := text.

Definition _is_response_ok (xml_response : Element) : bool :=
  negb (String.eqb (slice_last 5 (tag xml_response)) "Fault").

Section Extract.
Variable fromstring : string → result Element.
Context {T : Type}.
(** The method a subclass implements (the body of the base class only
    raises NotImplementedError); the two subclasses below supply theirs. *)
Variable _extract_information : Element → M t T.

Definition extract : M t (option T) :=
  self ← get_state;
  let response_text := encode_utf8 (response_text self) in
  xml_response ← lift_result (fromstring response_text);
  if _is_response_ok xml_response then
    info ← _extract_information xml_response;
    mret (Some info)
  else
    mret None.
End Extract.

End AbstractXmlInfoExtractor.

Module UserInfoExtractor.

Definition _extract_information (xml_response : Element)
  : M AbstractXmlInfoExtractor.t Student :=
  let student_info_xml := attrib xml_response in
  lift_result (
    given_name ← getitem student_info_xml "GivenName";
    family_name ← getitem student_info_xml "FamilyName";
    email ← getitem student_info_xml "Email";
    mret (mkStudent given_name family_name email)).

Definition extract (fromstring : string → result Element)
  : M AbstractXmlInfoExtractor.t (option Student) :=
  AbstractXmlInfoExtractor.extract fromstring _extract_information.

End UserInfoExtractor.

Module UserGradesExtractor.

Definition _map_to_course (course_xml : gmap string string) : result Course :=
  name ← getitem course_xml "Name";
  code ← getitem course_xml "CourseCode";
  mret (mkCourse name code).

Definition _map_to_exam_results (course_xml : gmap string string)
  : result ExamResult :=
  course ← _map_to_course course_xml;
  ects_points ← getitem course_xml "EctsPoints";
  grade ← getitem course_xml "Grade";
  period ← getitem course_xml "Period";
  year ← getitem course_xml "Year";
  mret (mkExamResult course ects_points grade period year).

Definition _extract_information (xml_response : Element)
  : M AbstractXmlInfoExtractor.t (list ExamResult) :=
  let courses_xml :=
    findall xml_response "EducationProgramme/ExamResults/ExamResult" in
  lift_result (
    list_comprehension
      (λ course_xml, _map_to_exam_results (attrib course_xml))
      courses_xml).

Definition extract (fromstring : string → result Element)
  : M AbstractXmlInfoExtractor.t (option (list ExamResult)) :=
  AbstractXmlInfoExtractor.extract fromstring _extract_information.

End UserGradesExtractor.

(** ** The authenticator *)

Module Authenticator.

Record t : Type := __init__ { app_name : string; api_token : string }.

Definition _headers (self : t) : gmap string string :=
  {[ "X-appname" := app_name self; "X-token" := api_token self ]}.

Definition _authentication_payload (username password : string)
  : gmap string string :=
  {[ "username" := username; "password" := password ]}.

Definition _is_authenticated (response_text_xml : Element) : bool :=
  match find response_text_xml "LimitedAccess" with
  | Some _ => true
  | None => false
  end.

Section Methods.
Variable fromstring : string → result Element.

Definition _extract_password_from_response_body (response_text : string)
  : result (option string) :=
  response_text_xml ← fromstring response_text;
  if _is_authenticated response_text_xml then
    match find response_text_xml "LimitedAccess" with
    | Some limited_access =>
        password ← getitem (attrib limited_access) "Password";
        mret (Some password)
    | None => Raise (AttributeError "attrib")
    end
  else
    mret None.

Context {World : Type}.
(** [requests.post(url, headers=..., data=...)]. *)
Variable post :
  string → gmap string string → gmap string string → M World requests.Response.

Definition auth_token (self : t) (username password : string)
  : M World (option string) :=
  response ← post "https://auth.dtu.dk/dtu/mobilapp.jsp"
                  (_headers self)
                  (_authentication_payload username password);
  lift_result (_extract_password_from_response_body (requests.text response)).
End Methods.

End Authenticator.

(** ** The network client of the read operations *)

Module UserClient.

Record t : Type :=
  __init__ { app_name : string;
             api_token : string;
             student_number : string;
             access_token : option string }.

Definition _headers (self : t) : gmap string string :=
  {[ "X-appname" := app_name self;
     "X-token" := api_token self;
     "accept-language" := "da-DK";
     "X-Include-services-and-relations" := "true" ]}.

Section Methods.
Context {World : Type}.
(** [requests.get(url, headers=..., auth=...)]. *)
Variable get_ :
  string → gmap string string → string * option string →
  M World requests.Response.

Definition get (self : t) (path : string) : M World requests.Response :=
  get_ ("https://www.campusnet.dtu.dk/data/CurrentUser/" +:+ path)
       (_headers self)
       (student_number self, access_token self).
End Methods.

End UserClient.

(** ** The session facade *)

Module CampusNetApi.

Record t : Type :=
  mk { app_name : string;
       api_token : string;
       student_number : string;
       auth_token : option string }.

(** The constructor; [auth_token] is [None] when the caller leaves it
    out. *)
Definition __init__ (app_name api_token student_number : string)
                    (auth_token : option string) : t :=
  mk app_name api_token student_number auth_token.

Section Methods.
Variable fromstring : string → result Element.
Context {World : Type}.
Variable post :
  string → gmap string string → gmap string string → M World requests.Response.
Variable get_ :
  string → gmap string string → string * option string →
  M World requests.Response.

(** Reading [self], and the assignment [self.auth_token = v]. *)
Definition get_self : M (t * World) t := λ s, (Return s.1, s).
Definition set_auth_token (v : option string) : M (t * World) unit :=
  λ s, (Return tt,
        (mk (app_name s.1) (api_token s.1) (student_number s.1) v, s.2)).

Definition _get_auth_token (password : string)
  : M (t * World) (option string) :=
  self ← get_self;
  on_snd (Authenticator.auth_token fromstring post
            (Authenticator.__init__ (app_name self) (api_token self))
            (student_number self)
            password).

Definition authenticate (password : string) : M (t * World) unit :=
  token ← _get_auth_token password;
  set_auth_token token.

Definition is_authenticated : M (t * World) bool :=
  self ← get_self;
  mret (match auth_token self with Some _ => true | None => false end).

Definition _client : M (t * World) UserClient.t :=
  self ← get_self;
  mret (UserClient.__init__ (app_name self) (api_token self)
          (student_number self) (auth_token self)).

Definition grades : M (t * World) (option (list ExamResult)) :=
  client ← _client;
  response ← on_snd (UserClient.get get_ client "Grades");
  on_new (AbstractXmlInfoExtractor.__init__ (requests.text response))
         (UserGradesExtractor.extract fromstring).

Definition user_info : M (t * World) (option Student) :=
  client ← _client;
  response ← on_snd (UserClient.get get_ client "UserInfo");
  on_new (AbstractXmlInfoExtractor.__init__ (requests.text response))
         (UserInfoExtractor.extract fromstring).

(** The operations of the facade, and the state a call leaves, whether
    it returns or raises. *)
Inductive operation : Type :=
  | Authenticate (password : string)
  | IsAuthenticated
  | Grades
  | UserInfo.

Definition perform (op : operation) : M (t * World) unit :=
  match op with
  | Authenticate password => authenticate password
  | IsAuthenticated => _ ← is_authenticated; mret tt
  | Grades => _ ← grades; mret tt
  | UserInfo => _ ← user_info; mret tt
  end.

Definition step (s : t * World) (op : operation) : t * World :=
  (perform op s).2.

Definition run (ops : list operation) (s : t * World) : t * World :=
  fold_left step ops s.
End Methods.

End CampusNetApi.

(** ** Notions of the specification *)

(** The tag is some prefix followed by the given suffix. *)
Definition ends_with (s suffix : string) : Prop :=
  ∃ prefix : string, s = prefix +:+ suffix.

(** A response text is well-formed when the parser returns its root. *)
Definition well_formed (fromstring : string → result Element) (text : string)
  : Prop :=
  ∃ root : Element, fromstring text = Return root.

(** The elements reached from [e] by a structural path of tag names, in
    document order (depth first, children left to right). *)
Fixpoint elements_at_path (path : list string) (e : Element) : list Element :=
  match path with
  | [] => [e]
  | name :: rest =>
      flat_map (elements_at_path rest)
               (filter (λ c, tag c = name) (children e))
  end.

Definition exam_result_path : list string :=
  ["EducationProgramme"; "ExamResults"; "ExamResult"].

(** The elements at nesting depth [d] below [e]; depth 0 is [e] itself,
    depth 1 its children. *)
Fixpoint elements_at_depth (d : nat) (e : Element) : list Element :=
  match d with
  | 0 => [e]
  | S d' => flat_map (elements_at_depth d') (children e)
  end.

(** The element carries every attribute of the list. *)
Definition has_attributes (keys : list string) (e : Element) : Prop :=
  Forall (λ key, is_Some (attrib e !! key)) keys.

Definition profile_attributes : list string :=
  ["GivenName"; "FamilyName"; "Email"].

Definition exam_result_attributes : list string :=
  ["Name"; "CourseCode"; "EctsPoints"; "Grade"; "Period"; "Year"].

(** The record maps the six attributes of the element. *)
Definition maps_exam_result (e : Element) (r : ExamResult) : Prop :=
  attrib e !! "Name" = Some (title (course r))
  ∧ attrib e !! "CourseCode" = Some (course_number (course r))
  ∧ attrib e !! "EctsPoints" = Some (ects_points r)
  ∧ attrib e !! "Grade" = Some (grade r)
  ∧ attrib e !! "Period" = Some (period r)
  ∧ attrib e !! "Year" = Some (year r).

(** A method of the facade keeps the session when the session it leaves
    is the one it started from. *)
Definition keeps_session {World A} (c : M (CampusNetApi.t * World) A) : Prop :=
  ∀ s, (c s).2.1 = s.1.

(** ** A server to run the client against

    An instance of the transport for running the client on concrete
    requests: the world is the list of the URLs requested so far, the
    authentication endpoint grants a token to one password, and the read
    endpoints answer with fixed documents. *)

Module TestServer.

Definition World : Type := list string.

Definition granted : string :=
  "<Response><LimitedAccess Password='tok123'/></Response>".
Definition denied : string :=
  "<Response><Error Reason='login failed'/></Response>".

Definition profile : string :=
  "<User GivenName='A' FamilyName='B' Email='c@d.com'/>".

Definition grades : string :=
  "<EducationProgrammes>
     <EducationProgramme>
       <ExamResults>
         <ExamResult Name='Logic' CourseCode='02156' EctsPoints='5'
                     Grade='12' Period='Winter' Year='2013'/>
         <ExamResult Name='Algebra' CourseCode='01005' EctsPoints='10'
                     Grade='7' Period='Summer' Year='2014'/>
       </ExamResults>
     </EducationProgramme>
   </EducationProgrammes>".

(** A grades document whose exam result has no Grade attribute, and its
    tree. *)
Definition ungraded : string :=
  "<Programmes><EducationProgramme><ExamResults><ExamResult Name='Logic' CourseCode='02156' EctsPoints='5' Period='Winter' Year='2013'/></ExamResults></EducationProgramme></Programmes>".

Definition ungraded_exam_result : Element :=
  mkElement "ExamResult"
    {[ "Name" := "Logic"; "CourseCode" := "02156"; "EctsPoints" := "5";
       "Period" := "Winter"; "Year" := "2013" ]} [].

Definition ungraded_root : Element :=
  mkElement "Programmes" ∅
    [mkElement "EducationProgramme" ∅
       [mkElement "ExamResults" ∅ [ungraded_exam_result]]].

(** An authentication response whose LimitedAccess element lies two
    levels below the root, and its tree. *)
Definition nested_grant : string :=
  "<Response><Session><LimitedAccess Password='tok123'/></Session></Response>".

Definition nested_grant_root : Element :=
  mkElement "Response" ∅
    [mkElement "Session" ∅
       [mkElement "LimitedAccess" {[ "Password" := "tok123" ]} []]].

Definition post (url : string) (headers data : gmap string string)
  : M World requests.Response :=
  λ w, (Return (requests.mkResponse
                  (if bool_decide (data !! "password" = Some "secret")
                   then granted else denied)),
        url :: w).

(** An authentication endpoint that answers with the nested grant. *)
Definition post_nested (url : string) (headers data : gmap string string)
  : M World requests.Response :=
  λ w, (Return (requests.mkResponse nested_grant), url :: w).

Definition get_ (url : string) (headers : gmap string string)
                (auth : string * option string) : M World requests.Response :=
  λ w, (Return (requests.mkResponse
                  (if String.eqb (slice_last 6 url) "Grades"
                   then grades else profile)),
        url :: w).

(** A fault response, and read endpoints that answer with it. *)
Definition fault : string := "<AccessFault Code='401'/>".

Definition get_fault (url : string) (headers : gmap string string)
                     (auth : string * option string)
  : M World requests.Response :=
  λ w, (Return (requests.mkResponse fault), url :: w).

(** A transport that fails on every request. *)
Definition post_down (url : string) (headers data : gmap string string)
  : M World requests.Response :=
  λ w, (Raise (RequestException "connection refused"), url :: w).

(** A profile document without the FamilyName attribute, and its tree;
    an authentication response whose first LimitedAccess child has no
    Password attribute. *)
Definition nameless : string := "<User GivenName='A' Email='c@d.com'/>".

Definition nameless_root : Element :=
  mkElement "User" {[ "GivenName" := "A"; "Email" := "c@d.com" ]} [].

Definition blank_grant : string :=
  "<Response><LimitedAccess/><LimitedAccess Password='tok123'/></Response>".

Definition blank_grant_root : Element :=
  mkElement "Response" ∅
    [mkElement "LimitedAccess" ∅ [];
     mkElement "LimitedAccess" {[ "Password" := "tok123" ]} []].

(** An element whose tag has three characters of two bytes each. *)
Definition wide_root : Element :=
  mkElement
    (String (ascii_of_nat 195) (String (ascii_of_nat 134)
       (String (ascii_of_nat 195) (String (ascii_of_nat 152)
          (String (ascii_of_nat 195) (String (ascii_of_nat 133)
             EmptyString))))))
    ∅ [].

(** A fresh session, not authenticated, before any request. *)
Definition fresh : CampusNetApi.t * World :=
  (CampusNetApi.__init__ "MyApp" "app-token-123" "s123456" None, []).

End TestServer.

(** ** Properties *)

(** *** Strings: the suffix test *)

Lemma substring_all (s : string) (m : nat) :
  String.length s ≤ m → String.substring 0 m s = s.
Proof.
  revert m. induction s as [|c s IH]; intros [|m] Hm; simpl in *; try lia; auto.
  f_equal. apply IH. lia.
Qed.

Lemma substring_skip_prefix (p t : string) :
  String.substring (String.length p) (String.length t) (p +:+ t) = t.
Proof.
  induction p as [|c p IH]; simpl; [apply substring_all; lia | exact IH].
Qed.

Lemma substring_is_suffix (s : string) (k m : nat) :
  k + m = String.length s → ends_with s (String.substring k m s).
Proof.
  revert k. induction s as [|c s IH]; intros k Hk; simpl in *.
  - destruct k, m; simpl in *; try lia. by exists EmptyString.
  - destruct k as [|k].
    + exists EmptyString. symmetry. apply (substring_all (String c s)).
      simpl. lia.
    + destruct (IH k) as [p Hp]; [lia|]. exists (String c p).
      change (String c s = String c (p +:+ String.substring k m s)).
      by rewrite <- Hp.
Qed.

Lemma append_length (p t : string) :
  String.length (p +:+ t) = String.length p + String.length t.
Proof. induction p; simpl; auto. Qed.

Lemma slice_last_spec (s t : string) :
  slice_last (String.length t) s = t ↔ ends_with s t.
Proof.
  unfold slice_last. split.
  - intros H. destruct (decide (String.length t ≤ String.length s)) as [Hle|Hgt].
    + rewrite <- H. apply substring_is_suffix. lia.
    + replace (String.length s - String.length t) with 0 in H by lia.
      rewrite substring_all in H by lia. exists EmptyString. by subst.
  - intros [p ->]. rewrite append_length.
    replace (String.length p + String.length t - String.length t)
      with (String.length p) by lia.
    apply substring_skip_prefix.
Qed.

Lemma is_response_ok_spec (xml_response : Element) :
  AbstractXmlInfoExtractor._is_response_ok xml_response = false
  ↔ ends_with (tag xml_response) "Fault".
Proof.
  unfold AbstractXmlInfoExtractor._is_response_ok.
  rewrite negb_false_iff, String.eqb_eq. apply (slice_last_spec _ "Fault").
Qed.

(** *** The parsers on examples *)

Example split_path_grades :
  split_path "EducationProgramme/ExamResults/ExamResult"
  = ["EducationProgramme"; "ExamResults"; "ExamResult"].
Proof. reflexivity. Qed.

Example fromstring_nested :
  XmlFragment.fromstring "<a x='1'><b/> <c y = '2' ></c ></a>"
  = Return (mkElement "a" {[ "x" := "1" ]}
              [mkElement "b" ∅ []; mkElement "c" {[ "y" := "2" ]} []]).
Proof. vm_compute. reflexivity. Qed.

Example fromstring_unbalanced : XmlFragment.fromstring "<a><b></a>" = Raise ParseError.
Proof. reflexivity. Qed.

(** *** The shared extraction routine *)

Section ExtractFacts.
Variable fromstring : string → result Element.
Context {T : Type}.
Variable mapper : Element → M AbstractXmlInfoExtractor.t T.

(** A text the parser rejects: the exception reaches the caller and the
    object is untouched. *)
Lemma extract_unparsed (text : string) (e : exception) :
  fromstring text = Raise e →
  AbstractXmlInfoExtractor.extract fromstring mapper
    (AbstractXmlInfoExtractor.__init__ text)
  = (Raise e, AbstractXmlInfoExtractor.__init__ text).
Proof.
  intros H. unfold AbstractXmlInfoExtractor.extract, mbind, M_bind, bind,
    get_state, lift_result, AbstractXmlInfoExtractor.encode_utf8.
  simpl. by rewrite H.
Qed.

(** A fault: [None], whatever the mapper is. *)
Lemma extract_fault (text : string) (root : Element) :
  fromstring text = Return root →
  AbstractXmlInfoExtractor._is_response_ok root = false →
  AbstractXmlInfoExtractor.extract fromstring mapper
    (AbstractXmlInfoExtractor.__init__ text)
  = (Return None, AbstractXmlInfoExtractor.__init__ text).
Proof.
  intros H Hok. unfold AbstractXmlInfoExtractor.extract, mbind, M_bind, bind,
    get_state, lift_result, AbstractXmlInfoExtractor.encode_utf8.
  simpl. by rewrite H, Hok.
Qed.

(** No fault: the result of the mapper on the root. *)
Lemma extract_ok (text : string) (root : Element) :
  fromstring text = Return root →
  AbstractXmlInfoExtractor._is_response_ok root = true →
  AbstractXmlInfoExtractor.extract fromstring mapper
    (AbstractXmlInfoExtractor.__init__ text)
  = match mapper root (AbstractXmlInfoExtractor.__init__ text) with
    | (Return info, self) => (Return (Some info), self)
    | (Raise e, self) => (Raise e, self)
    end.
Proof.
  intros H Hok. unfold AbstractXmlInfoExtractor.extract, mbind, M_bind, bind,
    get_state, lift_result, AbstractXmlInfoExtractor.encode_utf8.
  simpl. rewrite H, Hok.
  by destruct (mapper root _) as [[info|e] self].
Qed.

End ExtractFacts.

Lemma is_response_ok_true (xml_response : Element) :
  AbstractXmlInfoExtractor._is_response_ok xml_response = true
  ↔ ¬ ends_with (tag xml_response) "Fault".
Proof.
  rewrite <- is_response_ok_spec.
  destruct (AbstractXmlInfoExtractor._is_response_ok xml_response);
    split; congruence.
Qed.

(** The two mappers never return [None] in place of a record: they return
    a record or raise. *)
Lemma user_info_extract_ok (fromstring : string → result Element)
    (text : string) (root : Element) :
  fromstring text = Return root →
  AbstractXmlInfoExtractor._is_response_ok root = true →
  UserInfoExtractor.extract fromstring (AbstractXmlInfoExtractor.__init__ text)
  = (Some <$> (given_name ← getitem (attrib root) "GivenName";
               family_name ← getitem (attrib root) "FamilyName";
               email ← getitem (attrib root) "Email";
               mret (mkStudent given_name family_name email)),
     AbstractXmlInfoExtractor.__init__ text).
Proof.
  intros H Hok. unfold UserInfoExtractor.extract.
  rewrite (extract_ok _ _ _ _ H Hok).
  unfold UserInfoExtractor._extract_information, lift_result.
  by destruct (_ ≫= _).
Qed.

Lemma user_grades_extract_ok (fromstring : string → result Element)
    (text : string) (root : Element) :
  fromstring text = Return root →
  AbstractXmlInfoExtractor._is_response_ok root = true →
  UserGradesExtractor.extract fromstring (AbstractXmlInfoExtractor.__init__ text)
  = (Some <$> list_comprehension
                (λ course_xml,
                   UserGradesExtractor._map_to_exam_results (attrib course_xml))
                (findall root "EducationProgramme/ExamResults/ExamResult"),
     AbstractXmlInfoExtractor.__init__ text).
Proof.
  intros H Hok. unfold UserGradesExtractor.extract.
  rewrite (extract_ok _ _ _ _ H Hok).
  unfold UserGradesExtractor._extract_information, lift_result.
  by destruct (list_comprehension _ _).
Qed.

(** *** Paths: level by level and depth first *)

Lemma flat_map_flat_map {A B C} (f : A → list B) (g : B → list C) (l : list A) :
  flat_map g (flat_map f l) = flat_map (λ x, flat_map g (f x)) l.
Proof.
  induction l as [|x l IH]; simpl; [done|].
  by rewrite flat_map_app, IH.
Qed.

(** The selection of the library, one level of the tree at a time, lists
    the elements at the path in document order. *)
Lemma select_steps (path : list string) (res : list Element) :
  fold_left (λ res name, select_child name res) path res
  = flat_map (elements_at_path path) res.
Proof.
  revert res. induction path as [|name path IH]; intros res; simpl.
  - induction res as [|e res IHres]; simpl; [done|]. by rewrite <- IHres.
  - rewrite IH. unfold select_child. apply flat_map_flat_map.
Qed.

Lemma findall_exam_results (root : Element) :
  findall root "EducationProgramme/ExamResults/ExamResult"
  = elements_at_path exam_result_path root.
Proof.
  unfold findall, iterfind.
  change (split_path "EducationProgramme/ExamResults/ExamResult")
    with exam_result_path.
  rewrite select_steps. simpl. by rewrite app_nil_r.
Qed.

(** A single name selects among the children only. *)
Lemma find_child (root : Element) (name : string) :
  split_path name = [name] →
  find root name = head (filter (λ c, tag c = name) (children root)).
Proof.
  intros H. unfold find, iterfind. rewrite H. simpl. by rewrite app_nil_r.
Qed.

(** *** The mapper of exam results *)

Lemma map_to_exam_results_cases (course_xml : Element) :
  (∃ r, UserGradesExtractor._map_to_exam_results (attrib course_xml) = Return r
        ∧ maps_exam_result course_xml r)
  ∨ (∃ key, key ∈ exam_result_attributes
            ∧ attrib course_xml !! key = None
            ∧ UserGradesExtractor._map_to_exam_results (attrib course_xml)
              = Raise (KeyError key)).
Proof.
  unfold UserGradesExtractor._map_to_exam_results,
    UserGradesExtractor._map_to_course, maps_exam_result, getitem,
    exam_result_attributes.
  destruct (attrib course_xml !! "Name") as [name|] eqn:H1;
    [|right; exists "Name"; split_and!; [repeat constructor|done|done]].
  destruct (attrib course_xml !! "CourseCode") as [code|] eqn:H2;
    [|right; exists "CourseCode"; split_and!; [repeat constructor|done|done]].
  destruct (attrib course_xml !! "EctsPoints") as [ects|] eqn:H3;
    [|right; exists "EctsPoints"; split_and!; [repeat constructor|done|done]].
  destruct (attrib course_xml !! "Grade") as [gr|] eqn:H4;
    [|right; exists "Grade"; split_and!; [repeat constructor|done|done]].
  destruct (attrib course_xml !! "Period") as [per|] eqn:H5;
    [|right; exists "Period"; split_and!; [repeat constructor|done|done]].
  destruct (attrib course_xml !! "Year") as [yr|] eqn:H6;
    [|right; exists "Year"; split_and!; [repeat constructor|done|done]].
  left. eexists. split; [reflexivity|]. simpl. done.
Qed.

Lemma exam_results_cases (courses_xml : list Element) :
  (∃ rs, list_comprehension
           (λ course_xml,
              UserGradesExtractor._map_to_exam_results (attrib course_xml))
           courses_xml = Return rs
         ∧ Forall2 maps_exam_result courses_xml rs)
  ∨ (∃ course_xml key,
        course_xml ∈ courses_xml
        ∧ key ∈ exam_result_attributes
        ∧ attrib course_xml !! key = None
        ∧ list_comprehension
            (λ course_xml,
               UserGradesExtractor._map_to_exam_results (attrib course_xml))
            courses_xml = Raise (KeyError key)).
Proof.
  induction courses_xml as [|x l IH]; simpl.
  - left. exists []. split; [done|constructor].
  - destruct (map_to_exam_results_cases x) as [(r & Hr & Hm)|(k & Hk & Hx & Hr)].
    + rewrite Hr. simpl.
      destruct IH as [(rs & Hrs & HF)|(e & k & He & Hk & Hx & Hrs)].
      * left. exists (r :: rs). rewrite Hrs. split; [done|by constructor].
      * right. exists e, k. rewrite Hrs. split_and!; try done. by right.
    + right. exists x, k. rewrite Hr. split_and!; try done. by left.
Qed.

(** *** Faults *)

(** C1.  For a well-formed input, each of the two extractors returns
    [None] exactly when the tag of the root element ends with "Fault";
    nothing else of the document matters (the condition reads the root tag
    only, so a descendant tagged as a fault changes nothing), and on a
    fault the result is [None] for every mapper whatsoever: the mapper is
    not run. *)
Theorem extract_absent_iff_root_fault
    (fromstring : string → result Element) (text : string) (root : Element) :
  fromstring text = Return root →
  ((UserInfoExtractor.extract fromstring
      (AbstractXmlInfoExtractor.__init__ text)).1 = Return None
   ↔ ends_with (tag root) "Fault")
  ∧ ((UserGradesExtractor.extract fromstring
        (AbstractXmlInfoExtractor.__init__ text)).1 = Return None
     ↔ ends_with (tag root) "Fault")
  ∧ (ends_with (tag root) "Fault" →
     ∀ (T : Type) (mapper : Element → M AbstractXmlInfoExtractor.t T),
       AbstractXmlInfoExtractor.extract fromstring mapper
         (AbstractXmlInfoExtractor.__init__ text)
       = (Return None, AbstractXmlInfoExtractor.__init__ text)).
Proof.
  intros Hparse.
  destruct (AbstractXmlInfoExtractor._is_response_ok root) eqn:Hok.
  - pose proof (proj1 (is_response_ok_true root) Hok) as Hnf.
    rewrite (user_info_extract_ok _ _ _ Hparse Hok).
    rewrite (user_grades_extract_ok _ _ _ Hparse Hok). simpl.
    split_and!.
    + split; [|done]. by destruct (_ ≫= _).
    + split; [|done]. by destruct (list_comprehension _ _).
    + done.
  - pose proof (proj1 (is_response_ok_spec root) Hok) as Hf.
    unfold UserInfoExtractor.extract, UserGradesExtractor.extract.
    rewrite !(extract_fault _ _ _ _ Hparse Hok). simpl.
    split_and!; [done|done|].
    intros _ T mapper. by apply extract_fault with root.
Qed.

Lemma extract_absent_iff_root_fault_witness :
  (UserInfoExtractor.extract XmlFragment.fromstring
     (AbstractXmlInfoExtractor.__init__
        "<LoginFault Code='7'><User GivenName='A'/></LoginFault>")).1
  = Return None
  ∧ (UserGradesExtractor.extract XmlFragment.fromstring
       (AbstractXmlInfoExtractor.__init__
          "<User><NestedFault/></User>")).1
    ≠ Return None.
Proof.
  split.
  - apply (extract_absent_iff_root_fault XmlFragment.fromstring
             "<LoginFault Code='7'><User GivenName='A'/></LoginFault>"
             (mkElement "LoginFault" {[ "Code" := "7" ]}
                [mkElement "User" {[ "GivenName" := "A" ]} []])).
    + vm_compute. reflexivity.
    + exists "Login". reflexivity.
  - intros H.
    apply (extract_absent_iff_root_fault XmlFragment.fromstring
             "<User><NestedFault/></User>"
             (mkElement "User" ∅ [mkElement "NestedFault" ∅ []])) in H.
    + apply (proj2 (slice_last_spec "User" "Fault")) in H. discriminate H.
    + vm_compute. reflexivity.
Defined.

(** *** The profile *)

(** C4.  For a well-formed response that is not a fault and whose root
    element carries the attributes GivenName, FamilyName and Email, the
    profile extractor returns the record of these three values. *)
Theorem profile_extract_record
    (fromstring : string → result Element) (text : string) (root : Element)
    (given family mail : string) :
  fromstring text = Return root →
  ¬ ends_with (tag root) "Fault" →
  attrib root !! "GivenName" = Some given →
  attrib root !! "FamilyName" = Some family →
  attrib root !! "Email" = Some mail →
  (UserInfoExtractor.extract fromstring
     (AbstractXmlInfoExtractor.__init__ text)).1
  = Return (Some (mkStudent given family mail)).
Proof.
  intros Hparse Hnf Hg Hf Hm.
  apply is_response_ok_true in Hnf.
  rewrite (user_info_extract_ok _ _ _ Hparse Hnf). simpl.
  unfold getitem. by rewrite Hg, Hf, Hm.
Qed.

Lemma profile_extract_record_witness :
  (UserInfoExtractor.extract XmlFragment.fromstring
     (AbstractXmlInfoExtractor.__init__ TestServer.profile)).1
  = Return (Some (mkStudent "A" "B" "c@d.com")).
Proof.
  apply (profile_extract_record XmlFragment.fromstring TestServer.profile
           (mkElement "User"
              {[ "GivenName" := "A"; "FamilyName" := "B"; "Email" := "c@d.com" ]}
              [])).
  - vm_compute. reflexivity.
  - intros H. apply (proj2 (slice_last_spec "User" "Fault")) in H.
    discriminate H.
  - vm_compute. reflexivity.
  - vm_compute. reflexivity.
  - vm_compute. reflexivity.
Defined.

(** *** The grades *)

(** C6.  For a well-formed response that is not a fault and has no
    element at the path EducationProgramme/ExamResults/ExamResult, the
    grades extractor returns the empty sequence: a value, not [None], and
    no exception. *)
Theorem grades_extract_empty
    (fromstring : string → result Element) (text : string) (root : Element) :
  fromstring text = Return root →
  ¬ ends_with (tag root) "Fault" →
  elements_at_path exam_result_path root = [] →
  (UserGradesExtractor.extract fromstring
     (AbstractXmlInfoExtractor.__init__ text)).1
  = Return (Some []).
Proof.
  intros Hparse Hnf Hnone.
  apply is_response_ok_true in Hnf.
  rewrite (user_grades_extract_ok _ _ _ Hparse Hnf). simpl.
  by rewrite findall_exam_results, Hnone.
Qed.

Lemma grades_extract_empty_witness :
  (UserGradesExtractor.extract XmlFragment.fromstring
     (AbstractXmlInfoExtractor.__init__
        "<Programmes><EducationProgramme><ExamResults/></EducationProgramme></Programmes>")).1
  = Return (Some []).
Proof.
  apply (grades_extract_empty XmlFragment.fromstring _
           (mkElement "Programmes" ∅
              [mkElement "EducationProgramme" ∅
                 [mkElement "ExamResults" ∅ []]])).
  - vm_compute. reflexivity.
  - intros H. apply (proj2 (slice_last_spec "Programmes" "Fault")) in H.
    discriminate H.
  - vm_compute. reflexivity.
Defined.

(** *** Malformed input *)

(** C7.  For an input that is not well-formed, the parser raises, and the
    very exception it raises is the outcome of the two extractors and of
    the token extraction of the authenticator: no value and no [None] is
    returned. *)
Theorem malformed_input_raises
    (fromstring : string → result Element) (text : string) :
  ¬ well_formed fromstring text →
  ∃ e : exception,
    fromstring text = Raise e
    ∧ (UserInfoExtractor.extract fromstring
         (AbstractXmlInfoExtractor.__init__ text)).1 = Raise e
    ∧ (UserGradesExtractor.extract fromstring
         (AbstractXmlInfoExtractor.__init__ text)).1 = Raise e
    ∧ Authenticator._extract_password_from_response_body fromstring text
      = Raise e.
Proof.
  intros Hwf. destruct (fromstring text) as [root|e] eqn:Hparse.
  - destruct Hwf. by exists root.
  - exists e. unfold UserInfoExtractor.extract, UserGradesExtractor.extract.
    rewrite !(extract_unparsed _ _ _ _ Hparse).
    unfold Authenticator._extract_password_from_response_body.
    rewrite Hparse. done.
Qed.

Lemma malformed_input_raises_witness :
  ∃ e : exception,
    XmlFragment.fromstring "<a><b></a>" = Raise e
    ∧ (UserInfoExtractor.extract XmlFragment.fromstring
         (AbstractXmlInfoExtractor.__init__ "<a><b></a>")).1 = Raise e
    ∧ (UserGradesExtractor.extract XmlFragment.fromstring
         (AbstractXmlInfoExtractor.__init__ "<a><b></a>")).1 = Raise e
    ∧ Authenticator._extract_password_from_response_body
        XmlFragment.fromstring "<a><b></a>" = Raise e.
Proof.
  apply (malformed_input_raises XmlFragment.fromstring "<a><b></a>").
  intros [root H]. vm_compute in H. discriminate H.
Defined.

(** C5, amended.  For a well-formed response that is not a fault and in
    which every element at the path
    EducationProgramme/ExamResults/ExamResult carries the six attributes
    Name, CourseCode, EctsPoints, Grade, Period and Year, the grades
    extractor returns a sequence with one record per such element, in
    document order, each record mapping the six attributes of its
    element. *)
Theorem grades_extract_sequence
    (fromstring : string → result Element) (text : string) (root : Element) :
  fromstring text = Return root →
  ¬ ends_with (tag root) "Fault" →
  Forall (has_attributes exam_result_attributes)
         (elements_at_path exam_result_path root) →
  ∃ results : list ExamResult,
    (UserGradesExtractor.extract fromstring
       (AbstractXmlInfoExtractor.__init__ text)).1 = Return (Some results)
    ∧ length results = length (elements_at_path exam_result_path root)
    ∧ Forall2 maps_exam_result (elements_at_path exam_result_path root) results.
Proof.
  intros Hparse Hnf Hall.
  apply is_response_ok_true in Hnf.
  rewrite (user_grades_extract_ok _ _ _ Hparse Hnf). simpl.
  rewrite findall_exam_results.
  destruct (exam_results_cases (elements_at_path exam_result_path root))
    as [(rs & Hrs & HF)|(e & k & He & Hk & Hx & _)].
  - exists rs. rewrite Hrs. split_and!; [done| |done].
    symmetry. by eapply Forall2_length.
  - exfalso. rewrite Forall_forall in Hall. specialize (Hall e He).
    unfold has_attributes in Hall. rewrite Forall_forall in Hall.
    destruct (Hall k Hk) as [v Hv]. congruence.
Qed.

Lemma grades_extract_sequence_witness :
  ∃ results : list ExamResult,
    (UserGradesExtractor.extract XmlFragment.fromstring
       (AbstractXmlInfoExtractor.__init__ TestServer.grades)).1
    = Return (Some results)
    ∧ length results = 2
    ∧ (title ∘ course) <$> results = ["Logic"; "Algebra"].
Proof.
  destruct (grades_extract_sequence XmlFragment.fromstring TestServer.grades
              (mkElement "EducationProgrammes" ∅
                 [mkElement "EducationProgramme" ∅
                    [mkElement "ExamResults" ∅
                       [mkElement "ExamResult"
                          {[ "Name" := "Logic"; "CourseCode" := "02156";
                             "EctsPoints" := "5"; "Grade" := "12";
                             "Period" := "Winter"; "Year" := "2013" ]} [];
                        mkElement "ExamResult"
                          {[ "Name" := "Algebra"; "CourseCode" := "01005";
                             "EctsPoints" := "10"; "Grade" := "7";
                             "Period" := "Summer"; "Year" := "2014" ]} []]]]))
    as (results & Hres & Hlen & Hmap).
  - vm_compute. reflexivity.
  - intros H. apply (proj2 (slice_last_spec "EducationProgrammes" "Fault")) in H.
    discriminate H.
  - repeat constructor; by eexists.
  - exists results. split_and!; [done|done|].
    vm_compute in Hres. injection Hres as <-. reflexivity.
Defined.

(** C5 as stated fails: a well-formed response that is not a fault, with
    one element at the path, whose element has no Grade attribute; the
    extractor raises and returns no sequence. *)
Lemma grades_extract_sequence_counterexample :
  XmlFragment.fromstring TestServer.ungraded = Return TestServer.ungraded_root
  ∧ ¬ ends_with (tag TestServer.ungraded_root) "Fault"
  ∧ elements_at_path exam_result_path TestServer.ungraded_root
    = [TestServer.ungraded_exam_result]
  ∧ (UserGradesExtractor.extract XmlFragment.fromstring
       (AbstractXmlInfoExtractor.__init__ TestServer.ungraded)).1
    = Raise (KeyError "Grade").
Proof.
  split_and!.
  - vm_compute. reflexivity.
  - intros H. apply (proj2 (slice_last_spec "Programmes" "Fault")) in H.
    discriminate H.
  - vm_compute. reflexivity.
  - vm_compute. reflexivity.
Qed.

(** *** Missing attributes *)

Lemma maps_exam_result_is_Some (e : Element) (r : ExamResult) (key : string) :
  maps_exam_result e r → key ∈ exam_result_attributes →
  is_Some (attrib e !! key).
Proof.
  intros (H1 & H2 & H3 & H4 & H5 & H6) Hk. unfold exam_result_attributes in Hk.
  repeat (apply elem_of_cons in Hk as [->|Hk]; [by eexists|]).
  by apply elem_of_nil in Hk.
Qed.

Lemma user_info_missing (d : gmap string string) :
  (∃ key, key ∈ profile_attributes ∧ d !! key = None) →
  ∃ key, key ∈ profile_attributes ∧ d !! key = None
         ∧ (given_name ← getitem d "GivenName";
            family_name ← getitem d "FamilyName";
            email ← getitem d "Email";
            mret (mkStudent given_name family_name email))
           = Raise (KeyError key).
Proof.
  intros (key & Hk & Hnone). unfold getitem, profile_attributes in *.
  destruct (d !! "GivenName") as [g|] eqn:H1;
    [|exists "GivenName"; split_and!; [repeat constructor|done|done]].
  destruct (d !! "FamilyName") as [f|] eqn:H2;
    [|exists "FamilyName"; split_and!; [repeat constructor|done|done]].
  destruct (d !! "Email") as [m|] eqn:H3;
    [|exists "Email"; split_and!; [repeat constructor|done|done]].
  exfalso.
  repeat (apply elem_of_cons in Hk as [->|Hk]; [congruence|]).
  by apply elem_of_nil in Hk.
Qed.

(** C8.  For a well-formed response that is not a fault: when the root
    lacks one of GivenName, FamilyName, Email, the profile extractor
    raises the lookup error of a missing attribute; when an element at the
    path of the exam results lacks one of Name, CourseCode, EctsPoints,
    Grade, Period, Year, the grades extractor raises the lookup error of a
    missing attribute.  No [None] and no partial record is returned. *)
Theorem missing_attribute_raises
    (fromstring : string → result Element) (text : string) (root : Element) :
  fromstring text = Return root →
  ¬ ends_with (tag root) "Fault" →
  ((∃ key, key ∈ profile_attributes ∧ attrib root !! key = None) →
   ∃ key, key ∈ profile_attributes ∧ attrib root !! key = None
          ∧ (UserInfoExtractor.extract fromstring
               (AbstractXmlInfoExtractor.__init__ text)).1
            = Raise (KeyError key))
  ∧ ((∃ e key, e ∈ elements_at_path exam_result_path root
               ∧ key ∈ exam_result_attributes ∧ attrib e !! key = None) →
     ∃ e key, e ∈ elements_at_path exam_result_path root
              ∧ key ∈ exam_result_attributes ∧ attrib e !! key = None
              ∧ (UserGradesExtractor.extract fromstring
                   (AbstractXmlInfoExtractor.__init__ text)).1
                = Raise (KeyError key)).
Proof.
  intros Hparse Hnf. apply is_response_ok_true in Hnf. split.
  - intros Hmiss. rewrite (user_info_extract_ok _ _ _ Hparse Hnf). simpl.
    destruct (user_info_missing _ Hmiss) as (key & Hk & Hnone & Hr).
    exists key. by rewrite Hr.
  - intros (e & key & He & Hk & Hnone).
    rewrite (user_grades_extract_ok _ _ _ Hparse Hnf). simpl.
    rewrite findall_exam_results.
    destruct (exam_results_cases (elements_at_path exam_result_path root))
      as [(rs & Hrs & HF)|(e' & k' & He' & Hk' & Hx & Hr)].
    + exfalso. apply list_elem_of_lookup in He as [i Hi].
      destruct (Forall2_lookup_l _ _ _ _ _ HF Hi) as (r & _ & Hm).
      destruct (maps_exam_result_is_Some _ _ _ Hm Hk). congruence.
    + exists e', k'. by rewrite Hr.
Qed.

Lemma missing_attribute_raises_witness :
  (∃ key, key ∈ profile_attributes
          ∧ attrib TestServer.ungraded_root !! key = None
          ∧ (UserInfoExtractor.extract XmlFragment.fromstring
               (AbstractXmlInfoExtractor.__init__ TestServer.ungraded)).1
            = Raise (KeyError key))
  ∧ (∃ e key, e ∈ elements_at_path exam_result_path TestServer.ungraded_root
              ∧ key ∈ exam_result_attributes ∧ attrib e !! key = None
              ∧ (UserGradesExtractor.extract XmlFragment.fromstring
                   (AbstractXmlInfoExtractor.__init__ TestServer.ungraded)).1
                = Raise (KeyError key)).
Proof.
  destruct (missing_attribute_raises XmlFragment.fromstring TestServer.ungraded
              TestServer.ungraded_root) as [Hprofile Hgrades].
  - vm_compute. reflexivity.
  - intros H. apply (proj2 (slice_last_spec "Programmes" "Fault")) in H.
    discriminate H.
  - split.
    + apply Hprofile. exists "Email". split; [|reflexivity].
      unfold profile_attributes. repeat constructor.
    + apply Hgrades. exists TestServer.ungraded_exam_result, "Grade".
      split_and!; [|unfold exam_result_attributes; repeat constructor|reflexivity].
      change (elements_at_path exam_result_path TestServer.ungraded_root)
        with [TestServer.ungraded_exam_result]. constructor.
Defined.

(** *** Determinism *)

Lemma extract_keeps_object
    (fromstring : string → result Element) {T : Type} (f : Element → result T)
    (self : AbstractXmlInfoExtractor.t) :
  (AbstractXmlInfoExtractor.extract fromstring (λ x, lift_result (f x)) self).2
  = self.
Proof.
  unfold AbstractXmlInfoExtractor.extract, mbind, M_bind, bind, get_state,
    lift_result. simpl.
  destruct (fromstring _) as [root|e]; [|done].
  destruct (AbstractXmlInfoExtractor._is_response_ok root); [|done].
  by destruct (f root).
Qed.

(** C9.  A call of [extract] leaves the extractor as it was, and a second
    call on the same extractor, hence on the same raw text, gives a result
    equal to the first, for both extractors. *)
Theorem extract_twice_equal
    (fromstring : string → result Element) (self : AbstractXmlInfoExtractor.t) :
  ((UserInfoExtractor.extract fromstring self).2 = self
   ∧ (UserInfoExtractor.extract fromstring
        (UserInfoExtractor.extract fromstring self).2).1
     = (UserInfoExtractor.extract fromstring self).1)
  ∧ ((UserGradesExtractor.extract fromstring self).2 = self
     ∧ (UserGradesExtractor.extract fromstring
          (UserGradesExtractor.extract fromstring self).2).1
       = (UserGradesExtractor.extract fromstring self).1).
Proof.
  assert (H1 : (UserInfoExtractor.extract fromstring self).2 = self)
    by apply extract_keeps_object.
  assert (H2 : (UserGradesExtractor.extract fromstring self).2 = self)
    by apply extract_keeps_object.
  by rewrite H1, H2.
Qed.

(** *** The authenticator *)

Lemma head_filter_first {A} (P : A → Prop) `{∀ x, Decision (P x)}
    (before after : list A) (x : A) :
  Forall (λ y, ¬ P y) before → P x →
  head (filter P (before ++ x :: after)%list) = Some x.
Proof.
  intros Hb Hx. induction Hb as [|y l Hy Hl IH]; simpl.
  - by rewrite filter_cons_True.
  - by rewrite filter_cons_False.
Qed.

Lemma head_filter_none {A} (P : A → Prop) `{∀ x, Decision (P x)} (l : list A) :
  Forall (λ y, ¬ P y) l → head (filter P l) = None.
Proof.
  intros Hl. induction Hl as [|y l Hy Hl IH]; [done|].
  by rewrite filter_cons_False.
Qed.

(** The token extraction, by the first child tagged LimitedAccess; the
    read of [attrib] on [None] is never reached. *)
Lemma extract_password_parsed
    (fromstring : string → result Element) (text : string) (root : Element) :
  fromstring text = Return root →
  Authenticator._extract_password_from_response_body fromstring text
  = match head (filter (λ c, tag c = "LimitedAccess") (children root)) with
    | Some limited_access =>
        Some <$> getitem (attrib limited_access) "Password"
    | None => Return None
    end.
Proof.
  intros Hparse.
  unfold Authenticator._extract_password_from_response_body,
    Authenticator._is_authenticated.
  rewrite Hparse. simpl.
  rewrite (find_child root "LimitedAccess" eq_refl).
  destruct (head _) as [la|]; [|done].
  by destruct (getitem _ _).
Qed.

Lemma auth_token_run
    (fromstring : string → result Element) {World : Type}
    (post : string → gmap string string → gmap string string →
            M World requests.Response)
    (self : Authenticator.t) (username password : string)
    (w w' : World) (response : requests.Response) :
  post "https://auth.dtu.dk/dtu/mobilapp.jsp"
       (Authenticator._headers self)
       (Authenticator._authentication_payload username password) w
  = (Return response, w') →
  Authenticator.auth_token fromstring post self username password w
  = (Authenticator._extract_password_from_response_body fromstring
       (requests.text response), w').
Proof.
  intros Hpost.
  unfold Authenticator.auth_token, mbind, M_bind, bind, lift_result.
  by rewrite Hpost.
Qed.

(** C3, amended.  For a well-formed authentication response,
    [auth_token] returns the value of the Password attribute of the first
    LimitedAccess element among the children of the root element, when
    there is one and it carries a Password attribute; it returns [None],
    as a value and not as an exception, when no child of the root is a
    LimitedAccess element. *)
Theorem auth_token_of_response
    (fromstring : string → result Element) {World : Type}
    (post : string → gmap string string → gmap string string →
            M World requests.Response)
    (self : Authenticator.t) (username password : string)
    (w w' : World) (response : requests.Response) (root : Element) :
  post "https://auth.dtu.dk/dtu/mobilapp.jsp"
       (Authenticator._headers self)
       (Authenticator._authentication_payload username password) w
  = (Return response, w') →
  fromstring (requests.text response) = Return root →
  (∀ (before after : list Element) (limited_access : Element) (token : string),
     children root = (before ++ limited_access :: after)%list →
     Forall (λ c, tag c ≠ "LimitedAccess") before →
     tag limited_access = "LimitedAccess" →
     attrib limited_access !! "Password" = Some token →
     Authenticator.auth_token fromstring post self username password w
     = (Return (Some token), w'))
  ∧ (Forall (λ c, tag c ≠ "LimitedAccess") (children root) →
     Authenticator.auth_token fromstring post self username password w
     = (Return None, w')).
Proof.
  intros Hpost Hparse.
  rewrite (auth_token_run _ _ _ _ _ _ _ _ Hpost).
  rewrite (extract_password_parsed _ _ _ Hparse).
  split.
  - intros before after la token Hch Hbefore Hla Hpw.
    rewrite Hch, (head_filter_first _ _ _ _ Hbefore Hla).
    unfold getitem. by rewrite Hpw.
  - intros Hnone. by rewrite (head_filter_none _ _ Hnone).
Qed.

Lemma auth_token_of_response_witness :
  Authenticator.auth_token XmlFragment.fromstring TestServer.post
    (Authenticator.__init__ "MyApp" "app-token-123") "s123456" "secret" []
  = (Return (Some "tok123"), ["https://auth.dtu.dk/dtu/mobilapp.jsp"])
  ∧ Authenticator.auth_token XmlFragment.fromstring TestServer.post
      (Authenticator.__init__ "MyApp" "app-token-123") "s123456" "guess" []
    = (Return None, ["https://auth.dtu.dk/dtu/mobilapp.jsp"]).
Proof.
  split.
  - apply (proj1 (auth_token_of_response XmlFragment.fromstring TestServer.post
                    (Authenticator.__init__ "MyApp" "app-token-123")
                    "s123456" "secret" []
                    ["https://auth.dtu.dk/dtu/mobilapp.jsp"]
                    (requests.mkResponse TestServer.granted)
                    (mkElement "Response" ∅
                       [mkElement "LimitedAccess" {[ "Password" := "tok123" ]} []])
                    ltac:(vm_compute; reflexivity)
                    ltac:(vm_compute; reflexivity))
             [] []
             (mkElement "LimitedAccess" {[ "Password" := "tok123" ]} [])).
    + reflexivity.
    + constructor.
    + reflexivity.
    + vm_compute. reflexivity.
  - apply (proj2 (auth_token_of_response XmlFragment.fromstring TestServer.post
                    (Authenticator.__init__ "MyApp" "app-token-123")
                    "s123456" "guess" []
                    ["https://auth.dtu.dk/dtu/mobilapp.jsp"]
                    (requests.mkResponse TestServer.denied)
                    (mkElement "Response" ∅
                       [mkElement "Error" {[ "Reason" := "login failed" ]} []])
                    ltac:(vm_compute; reflexivity)
                    ltac:(vm_compute; reflexivity))).
    repeat constructor. simpl. discriminate.
Defined.

(** C3 as stated fails: a well-formed response in which a LimitedAccess
    element with Password tok123 is present, below a child of the root;
    the token extraction returns [None]. *)
Lemma auth_token_of_response_counterexample :
  XmlFragment.fromstring TestServer.nested_grant
  = Return TestServer.nested_grant_root
  ∧ mkElement "LimitedAccess" {[ "Password" := "tok123" ]} []
    ∈ elements_at_depth 2 TestServer.nested_grant_root
  ∧ Authenticator._extract_password_from_response_body XmlFragment.fromstring
      TestServer.nested_grant
    = Return None.
Proof.
  split_and!.
  - vm_compute. reflexivity.
  - simpl. constructor.
  - vm_compute. reflexivity.
Qed.

Lemma elements_at_depth_1 (e : Element) : elements_at_depth 1 e = children e.
Proof.
  simpl. induction (children e) as [|c l IH]; simpl; [done|]. by rewrite IH.
Qed.

(** C10.  The success check looks at the children of the root only: for a
    well-formed authentication response in which every LimitedAccess
    element lies at nesting depth two or more, [auth_token] returns
    [None]. *)
Theorem auth_token_nested_only
    (fromstring : string → result Element) {World : Type}
    (post : string → gmap string string → gmap string string →
            M World requests.Response)
    (self : Authenticator.t) (username password : string)
    (w w' : World) (response : requests.Response) (root : Element) :
  post "https://auth.dtu.dk/dtu/mobilapp.jsp"
       (Authenticator._headers self)
       (Authenticator._authentication_payload username password) w
  = (Return response, w') →
  fromstring (requests.text response) = Return root →
  (∀ (d : nat) (e : Element),
     e ∈ elements_at_depth d root → tag e = "LimitedAccess" → 2 ≤ d) →
  Authenticator.auth_token fromstring post self username password w
  = (Return None, w').
Proof.
  intros Hpost Hparse Hdeep.
  rewrite (auth_token_run _ _ _ _ _ _ _ _ Hpost).
  rewrite (extract_password_parsed _ _ _ Hparse).
  rewrite head_filter_none; [done|].
  apply Forall_forall. intros c Hc Htag.
  rewrite <- elements_at_depth_1 in Hc.
  specialize (Hdeep 1 c Hc Htag). lia.
Qed.

Lemma auth_token_nested_only_witness :
  Authenticator.auth_token XmlFragment.fromstring TestServer.post_nested
    (Authenticator.__init__ "MyApp" "app-token-123") "s123456" "secret" []
  = (Return None, ["https://auth.dtu.dk/dtu/mobilapp.jsp"]).
Proof.
  apply (auth_token_nested_only XmlFragment.fromstring TestServer.post_nested
           (Authenticator.__init__ "MyApp" "app-token-123")
           "s123456" "secret" [] ["https://auth.dtu.dk/dtu/mobilapp.jsp"]
           (requests.mkResponse TestServer.nested_grant)
           TestServer.nested_grant_root).
  - reflexivity.
  - vm_compute. reflexivity.
  - intros [|[|d]] e He Htag; [| |lia].
    + apply list_elem_of_singleton in He as ->. discriminate Htag.
    + apply list_elem_of_singleton in He as ->. discriminate Htag.
Defined.

(** *** The session *)

Section SessionFacts.
Variable fromstring : string → result Element.
Context {World : Type}.
Variable post :
  string → gmap string string → gmap string string → M World requests.Response.
Variable get_ :
  string → gmap string string → string * option string →
  M World requests.Response.

Lemma keeps_session_bind {A B} (c : M (CampusNetApi.t * World) A)
    (k : A → M (CampusNetApi.t * World) B) :
  keeps_session c → (∀ a, keeps_session (k a)) → keeps_session (c ≫= k).
Proof.
  intros Hc Hk s. unfold mbind, M_bind, bind.
  specialize (Hc s). destruct (c s) as [[a|e] s']; simpl in *.
  - by rewrite Hk.
  - done.
Qed.

Lemma keeps_session_ret {A} (a : A) :
  keeps_session (mret a : M (CampusNetApi.t * World) A).
Proof. by intros s. Qed.

Lemma keeps_session_get_self :
  keeps_session (@CampusNetApi.get_self World).
Proof. by intros s. Qed.

Lemma keeps_session_on_snd {A} (c : M World A) :
  keeps_session (on_snd c : M (CampusNetApi.t * World) A).
Proof. intros s. unfold on_snd. by destruct (c s.2). Qed.

Lemma keeps_session_on_new {O A} (o : O) (c : M O A) :
  keeps_session (on_new o c : M (CampusNetApi.t * World) A).
Proof. by intros s. Qed.

Lemma keeps_session_get_auth_token (password : string) :
  keeps_session (CampusNetApi._get_auth_token fromstring post password).
Proof.
  apply keeps_session_bind; [apply keeps_session_get_self|].
  intros self. apply keeps_session_on_snd.
Qed.

Lemma keeps_session_is_authenticated :
  keeps_session (@CampusNetApi.is_authenticated World).
Proof.
  apply keeps_session_bind; [apply keeps_session_get_self|].
  intros self. apply keeps_session_ret.
Qed.

Lemma keeps_session_client : keeps_session (@CampusNetApi._client World).
Proof.
  apply keeps_session_bind; [apply keeps_session_get_self|].
  intros self. apply keeps_session_ret.
Qed.

Lemma keeps_session_grades :
  keeps_session (CampusNetApi.grades fromstring get_).
Proof.
  apply keeps_session_bind; [apply keeps_session_client|]. intros client.
  apply keeps_session_bind; [apply keeps_session_on_snd|]. intros response.
  apply keeps_session_on_new.
Qed.

Lemma keeps_session_user_info :
  keeps_session (CampusNetApi.user_info fromstring get_).
Proof.
  apply keeps_session_bind; [apply keeps_session_client|]. intros client.
  apply keeps_session_bind; [apply keeps_session_on_snd|]. intros response.
  apply keeps_session_on_new.
Qed.

(** The session after [authenticate]: the returned token is stored; when
    the exchange raises, the session is as before. *)
Lemma authenticate_session (password : string) (s : CampusNetApi.t * World) :
  (CampusNetApi.authenticate fromstring post password s).2.1
  = match (CampusNetApi._get_auth_token fromstring post password s).1 with
    | Return token =>
        CampusNetApi.mk (CampusNetApi.app_name s.1) (CampusNetApi.api_token s.1)
          (CampusNetApi.student_number s.1) token
    | Raise _ => s.1
    end.
Proof.
  unfold CampusNetApi.authenticate, mbind, M_bind, bind.
  pose proof (keeps_session_get_auth_token password s) as Hk.
  destruct (CampusNetApi._get_auth_token fromstring post password s)
    as [[token|e] s']; simpl in *.
  - by rewrite Hk.
  - done.
Qed.

Lemma step_read_operation (s : CampusNetApi.t * World)
    (op : CampusNetApi.operation) :
  (∀ password, op ≠ CampusNetApi.Authenticate password) →
  (CampusNetApi.step fromstring post get_ s op).1 = s.1.
Proof.
  intros Hop. unfold CampusNetApi.step.
  destruct op as [password| | |]; unfold CampusNetApi.perform.
  - by destruct (Hop password).
  - apply (keeps_session_bind _ _ keeps_session_is_authenticated).
    intros; apply keeps_session_ret.
  - apply (keeps_session_bind _ _ keeps_session_grades).
    intros; apply keeps_session_ret.
  - apply (keeps_session_bind _ _ keeps_session_user_info).
    intros; apply keeps_session_ret.
Qed.

End SessionFacts.

(** C2, amended.  A session constructed without a token starts with the
    token absent.  An operation other than an authentication call leaves
    the session as it was.  An authentication call whose token exchange
    returns overwrites the token with the returned value, whatever the
    token was: the new token after a successful call, absent after an
    unsuccessful one; an authentication call whose exchange raises leaves
    the session as it was.  Hence the session goes from Unauthenticated to
    Authenticated only by a successful authentication call, and leaves
    Authenticated only by an authentication call whose exchange returns an
    absent token. *)
Theorem session_token_transitions
    (fromstring : string → result Element) {World : Type}
    (post : string → gmap string string → gmap string string →
            M World requests.Response)
    (get_ : string → gmap string string → string * option string →
            M World requests.Response)
    (self : CampusNetApi.t) (w : World) (op : CampusNetApi.operation) :
  (∀ app_name api_token student_number : string,
     CampusNetApi.auth_token
       (CampusNetApi.__init__ app_name api_token student_number None) = None)
  ∧ ((∀ password, op ≠ CampusNetApi.Authenticate password) →
     (CampusNetApi.step fromstring post get_ (self, w) op).1 = self)
  ∧ (∀ (password : string) (token : option string),
       op = CampusNetApi.Authenticate password →
       (CampusNetApi._get_auth_token fromstring post password (self, w)).1
       = Return token →
       (CampusNetApi.step fromstring post get_ (self, w) op).1
       = CampusNetApi.mk (CampusNetApi.app_name self)
           (CampusNetApi.api_token self)
           (CampusNetApi.student_number self) token)
  ∧ (∀ (password : string) (e : exception),
       op = CampusNetApi.Authenticate password →
       (CampusNetApi._get_auth_token fromstring post password (self, w)).1
       = Raise e →
       (CampusNetApi.step fromstring post get_ (self, w) op).1 = self)
  ∧ (CampusNetApi.auth_token self = None →
     CampusNetApi.auth_token
       (CampusNetApi.step fromstring post get_ (self, w) op).1 ≠ None →
     ∃ (password token : string),
       op = CampusNetApi.Authenticate password
       ∧ (CampusNetApi._get_auth_token fromstring post password (self, w)).1
         = Return (Some token)
       ∧ CampusNetApi.auth_token
           (CampusNetApi.step fromstring post get_ (self, w) op).1
         = Some token)
  ∧ (CampusNetApi.auth_token self ≠ None →
     CampusNetApi.auth_token
       (CampusNetApi.step fromstring post get_ (self, w) op).1 = None →
     ∃ password : string,
       op = CampusNetApi.Authenticate password
       ∧ (CampusNetApi._get_auth_token fromstring post password (self, w)).1
         = Return None).
Proof.
  assert (Hread :
    (∀ password, op ≠ CampusNetApi.Authenticate password) →
    (CampusNetApi.step fromstring post get_ (self, w) op).1 = self).
  { intros Hop.
    by apply (step_read_operation fromstring post get_ (self, w)). }
  assert (Hauth : ∀ password,
    op = CampusNetApi.Authenticate password →
    (CampusNetApi.step fromstring post get_ (self, w) op).1
    = match (CampusNetApi._get_auth_token fromstring post password
               (self, w)).1 with
      | Return token =>
          CampusNetApi.mk (CampusNetApi.app_name self)
            (CampusNetApi.api_token self)
            (CampusNetApi.student_number self) token
      | Raise _ => self
      end).
  { intros password ->. unfold CampusNetApi.step, CampusNetApi.perform.
    by rewrite authenticate_session. }
  split_and!.
  - done.
  - exact Hread.
  - intros password token Hop Hget. by rewrite (Hauth _ Hop), Hget.
  - intros password e Hop Hget. by rewrite (Hauth _ Hop), Hget.
  - intros Hnone Hsome. destruct op as [password| | |];
      try (rewrite Hread in Hsome; [done|done]).
    rewrite (Hauth password eq_refl) in Hsome |- *.
    destruct (CampusNetApi._get_auth_token fromstring post password (self, w)).1
      as [[token|]|e] eqn:Hget; simpl in *; try done.
    by exists password, token.
  - intros Hsome Hnone. destruct op as [password| | |];
      try (rewrite Hread in Hnone; [done|done]).
    rewrite (Hauth password eq_refl) in Hnone.
    destruct (CampusNetApi._get_auth_token fromstring post password (self, w)).1
      as [[token|]|e] eqn:Hget; simpl in *; try done.
    by exists password.
Qed.

Lemma session_token_transitions_witness :
  (CampusNetApi.step XmlFragment.fromstring TestServer.post TestServer.get_
     TestServer.fresh (CampusNetApi.Authenticate "secret")).1
  = CampusNetApi.mk "MyApp" "app-token-123" "s123456" (Some "tok123")
  ∧ (CampusNetApi.step XmlFragment.fromstring TestServer.post TestServer.get_
       (CampusNetApi.mk "MyApp" "app-token-123" "s123456" (Some "tok123"), [])
       (CampusNetApi.Authenticate "guess")).1
    = CampusNetApi.mk "MyApp" "app-token-123" "s123456" None
  ∧ (CampusNetApi.step XmlFragment.fromstring TestServer.post_down
       TestServer.get_
       (CampusNetApi.mk "MyApp" "app-token-123" "s123456" (Some "tok123"), [])
       (CampusNetApi.Authenticate "secret")).1
    = CampusNetApi.mk "MyApp" "app-token-123" "s123456" (Some "tok123")
  ∧ (CampusNetApi.step XmlFragment.fromstring TestServer.post TestServer.get_
       (CampusNetApi.mk "MyApp" "app-token-123" "s123456" (Some "tok123"), [])
       CampusNetApi.Grades).1
    = CampusNetApi.mk "MyApp" "app-token-123" "s123456" (Some "tok123").
Proof.
  split_and!.
  - apply (proj1 (proj2 (proj2
      (session_token_transitions XmlFragment.fromstring TestServer.post
         TestServer.get_ TestServer.fresh.1 TestServer.fresh.2
         (CampusNetApi.Authenticate "secret")))) "secret" (Some "tok123")).
    + reflexivity.
    + vm_compute. reflexivity.
  - apply (proj1 (proj2 (proj2
      (session_token_transitions XmlFragment.fromstring TestServer.post
         TestServer.get_
         (CampusNetApi.mk "MyApp" "app-token-123" "s123456" (Some "tok123"))
         [] (CampusNetApi.Authenticate "guess")))) "guess" None).
    + reflexivity.
    + vm_compute. reflexivity.
  - apply (proj1 (proj2 (proj2 (proj2
      (session_token_transitions XmlFragment.fromstring TestServer.post_down
         TestServer.get_
         (CampusNetApi.mk "MyApp" "app-token-123" "s123456" (Some "tok123"))
         [] (CampusNetApi.Authenticate "secret")))))
      "secret" (RequestException "connection refused")).
    + reflexivity.
    + vm_compute. reflexivity.
  - apply (proj1 (proj2
      (session_token_transitions XmlFragment.fromstring TestServer.post
         TestServer.get_
         (CampusNetApi.mk "MyApp" "app-token-123" "s123456" (Some "tok123"))
         [] CampusNetApi.Grades))).
    intros password. discriminate.
Defined.

(** C2 as stated fails: an authentication call with a wrong password on
    an authenticated session leaves the session without a token. *)
Lemma session_token_transitions_counterexample :
  CampusNetApi.auth_token
    (CampusNetApi.run XmlFragment.fromstring TestServer.post TestServer.get_
       [CampusNetApi.Authenticate "secret"] TestServer.fresh).1
  = Some "tok123"
  ∧ CampusNetApi.auth_token
      (CampusNetApi.run XmlFragment.fromstring TestServer.post TestServer.get_
         [CampusNetApi.Authenticate "secret"; CampusNetApi.Authenticate "guess"]
         TestServer.fresh).1
    = None.
Proof. split; vm_compute; reflexivity. Qed.

(** *** The facade against the test server *)

Example facade_user_info :
  (CampusNetApi.user_info XmlFragment.fromstring TestServer.get_
     (CampusNetApi.run XmlFragment.fromstring TestServer.post TestServer.get_
        [CampusNetApi.Authenticate "secret"] TestServer.fresh)).1
  = Return (Some (mkStudent "A" "B" "c@d.com")).
Proof. vm_compute. reflexivity. Qed.

Example facade_grades :
  (CampusNetApi.grades XmlFragment.fromstring TestServer.get_
     (CampusNetApi.run XmlFragment.fromstring TestServer.post TestServer.get_
        [CampusNetApi.Authenticate "secret"] TestServer.fresh)).1
  = Return (Some
      [mkExamResult (mkCourse "Logic" "02156") "5" "12" "Winter" "2013";
       mkExamResult (mkCourse "Algebra" "01005") "10" "7" "Summer" "2014"]).
Proof. vm_compute. reflexivity. Qed.

(** A response that is a LimitedAccess element itself, with nothing
    below: the search is among the children of the root, and the token
    extraction returns [None]. *)
Example limited_access_as_root :
  Authenticator._extract_password_from_response_body XmlFragment.fromstring
    "<LimitedAccess Password='tok123'/>"
  = Return None.
Proof. vm_compute. reflexivity. Qed.

(** A LimitedAccess child without a Password attribute: the lookup
    raises. *)
Example limited_access_without_password :
  Authenticator._extract_password_from_response_body XmlFragment.fromstring
    "<Response><LimitedAccess/></Response>"
  = Raise (KeyError "Password").
Proof. vm_compute. reflexivity. Qed.

(** ** Further properties of the client *)

(** *** Which lookup error is raised *)

Lemma list_comprehension_app_raise {A B} (f : A → result B)
    (before after : list A) (x : A) (e : exception) :
  Forall (λ y, ∃ b, f y = Return b) before →
  f x = Raise e →
  list_comprehension f (before ++ x :: after)%list = Raise e.
Proof.
  intros Hb Hx. induction Hb as [|y l [b Hy] Hl IH]; simpl.
  - by rewrite Hx.
  - by rewrite Hy, IH.
Qed.

Lemma has_attributes_lookup (keys : list string) (e : Element) (key : string) :
  has_attributes keys e → key ∈ keys → is_Some (attrib e !! key).
Proof.
  unfold has_attributes. rewrite Forall_forall. auto.
Qed.

Lemma map_to_exam_results_returns (e : Element) :
  has_attributes exam_result_attributes e →
  ∃ r, UserGradesExtractor._map_to_exam_results (attrib e) = Return r.
Proof.
  intros Hall.
  destruct (map_to_exam_results_cases e) as [(r & Hr & _)|(k & Hk & Hx & _)].
  - by exists r.
  - destruct (has_attributes_lookup _ _ _ Hall Hk). congruence.
Qed.

(** The mapper of one exam result raises for the first attribute that is
    missing, in the order in which it reads them. *)
Lemma map_to_exam_results_first_missing (d : gmap string string)
    (present rest : list string) (key : string) :
  exam_result_attributes = (present ++ key :: rest)%list →
  Forall (λ a, is_Some (d !! a)) present →
  d !! key = None →
  UserGradesExtractor._map_to_exam_results d = Raise (KeyError key).
Proof.
  unfold exam_result_attributes. intros Hsplit Hpresent Hkey.
  unfold UserGradesExtractor._map_to_exam_results,
    UserGradesExtractor._map_to_course, getitem.
  do 6 (destruct present as [|? present];
        [simplify_eq/=; by rewrite Hkey|];
        apply Forall_cons in Hpresent as [[? Hp] Hpresent];
        injection Hsplit as <- Hsplit; rewrite Hp; clear Hp; simpl).
  destruct present; discriminate Hsplit.
Qed.

(** X1.  The profile mapper reads GivenName, FamilyName and Email in this
    order: on a response that is not a fault, the lookup error names the
    first of the three that the root lacks. *)
Theorem profile_first_missing_attribute
    (fromstring : string → result Element) (text : string) (root : Element)
    (present rest : list string) (key : string) :
  fromstring text = Return root →
  ¬ ends_with (tag root) "Fault" →
  profile_attributes = (present ++ key :: rest)%list →
  Forall (λ a, is_Some (attrib root !! a)) present →
  attrib root !! key = None →
  (UserInfoExtractor.extract fromstring
     (AbstractXmlInfoExtractor.__init__ text)).1
  = Raise (KeyError key).
Proof.
  intros Hparse Hnf Hsplit Hpresent Hkey.
  apply is_response_ok_true in Hnf.
  rewrite (user_info_extract_ok _ _ _ Hparse Hnf). simpl.
  unfold profile_attributes in Hsplit. unfold getitem.
  do 3 (destruct present as [|? present];
        [simplify_eq/=; by rewrite Hkey|];
        apply Forall_cons in Hpresent as [[? Hp] Hpresent];
        injection Hsplit as <- Hsplit; rewrite Hp; clear Hp; simpl).
  destruct present; discriminate Hsplit.
Qed.

Lemma profile_first_missing_attribute_witness :
  (UserInfoExtractor.extract XmlFragment.fromstring
     (AbstractXmlInfoExtractor.__init__ TestServer.nameless)).1
  = Raise (KeyError "FamilyName").
Proof.
  apply (profile_first_missing_attribute XmlFragment.fromstring
           TestServer.nameless TestServer.nameless_root
           ["GivenName"] ["Email"]).
  - vm_compute. reflexivity.
  - intros H. apply (proj2 (slice_last_spec "User" "Fault")) in H.
    discriminate H.
  - reflexivity.
  - repeat constructor. by eexists.
  - reflexivity.
Defined.

(** X2.  The grades extractor maps the matched elements in document
    order and each element's attributes in the order Name, CourseCode,
    EctsPoints, Grade, Period, Year: the lookup error names the first
    missing attribute of the first matched element that lacks one,
    whatever the later elements carry. *)
Theorem grades_first_missing_attribute
    (fromstring : string → result Element) (text : string) (root : Element)
    (before after : list Element) (e : Element)
    (present rest : list string) (key : string) :
  fromstring text = Return root →
  ¬ ends_with (tag root) "Fault" →
  elements_at_path exam_result_path root = (before ++ e :: after)%list →
  Forall (has_attributes exam_result_attributes) before →
  exam_result_attributes = (present ++ key :: rest)%list →
  Forall (λ a, is_Some (attrib e !! a)) present →
  attrib e !! key = None →
  (UserGradesExtractor.extract fromstring
     (AbstractXmlInfoExtractor.__init__ text)).1
  = Raise (KeyError key).
Proof.
  intros Hparse Hnf Hmatched Hbefore Hsplit Hpresent Hkey.
  apply is_response_ok_true in Hnf.
  rewrite (user_grades_extract_ok _ _ _ Hparse Hnf). simpl.
  rewrite findall_exam_results, Hmatched.
  rewrite (list_comprehension_app_raise _ before after e (KeyError key));
    [done| |].
  - eapply Forall_impl; [exact Hbefore|]. intros x Hx.
    by apply map_to_exam_results_returns.
  - by apply (map_to_exam_results_first_missing _ present rest).
Qed.

Lemma grades_first_missing_attribute_witness :
  (UserGradesExtractor.extract XmlFragment.fromstring
     (AbstractXmlInfoExtractor.__init__ TestServer.ungraded)).1
  = Raise (KeyError "Grade").
Proof.
  apply (grades_first_missing_attribute XmlFragment.fromstring
           TestServer.ungraded TestServer.ungraded_root
           [] [] TestServer.ungraded_exam_result
           ["Name"; "CourseCode"; "EctsPoints"] ["Period"; "Year"]).
  - vm_compute. reflexivity.
  - intros H. apply (proj2 (slice_last_spec "Programmes" "Fault")) in H.
    discriminate H.
  - vm_compute. reflexivity.
  - constructor.
  - reflexivity.
  - repeat constructor; by eexists.
  - reflexivity.
Defined.

(** *** The outcomes of an extraction *)

(** X3.  The outcomes of [extract] are four, for each extractor: the
    exception of the parser; [None] on a fault; a record (a sequence of
    records) when the response is not a fault; or the lookup error of an
    attribute the mapper reads and the response lacks.  Nothing else is
    returned or raised. *)
Theorem extract_outcomes
    (fromstring : string → result Element) (text : string) :
  ((∃ e, fromstring text = Raise e
         ∧ (UserInfoExtractor.extract fromstring
              (AbstractXmlInfoExtractor.__init__ text)).1 = Raise e)
   ∨ ∃ root, fromstring text = Return root
       ∧ ((ends_with (tag root) "Fault"
           ∧ (UserInfoExtractor.extract fromstring
                (AbstractXmlInfoExtractor.__init__ text)).1 = Return None)
          ∨ (¬ ends_with (tag root) "Fault"
             ∧ ((∃ given family mail,
                   attrib root !! "GivenName" = Some given
                   ∧ attrib root !! "FamilyName" = Some family
                   ∧ attrib root !! "Email" = Some mail
                   ∧ (UserInfoExtractor.extract fromstring
                        (AbstractXmlInfoExtractor.__init__ text)).1
                     = Return (Some (mkStudent given family mail)))
                ∨ ∃ key, key ∈ profile_attributes
                    ∧ attrib root !! key = None
                    ∧ (UserInfoExtractor.extract fromstring
                         (AbstractXmlInfoExtractor.__init__ text)).1
                      = Raise (KeyError key)))))
  ∧ ((∃ e, fromstring text = Raise e
           ∧ (UserGradesExtractor.extract fromstring
                (AbstractXmlInfoExtractor.__init__ text)).1 = Raise e)
     ∨ ∃ root, fromstring text = Return root
         ∧ ((ends_with (tag root) "Fault"
             ∧ (UserGradesExtractor.extract fromstring
                  (AbstractXmlInfoExtractor.__init__ text)).1 = Return None)
            ∨ (¬ ends_with (tag root) "Fault"
               ∧ ((∃ results,
                     Forall2 maps_exam_result
                       (elements_at_path exam_result_path root) results
                     ∧ (UserGradesExtractor.extract fromstring
                          (AbstractXmlInfoExtractor.__init__ text)).1
                       = Return (Some results))
                  ∨ ∃ x key, x ∈ elements_at_path exam_result_path root
                      ∧ key ∈ exam_result_attributes
                      ∧ attrib x !! key = None
                      ∧ (UserGradesExtractor.extract fromstring
                           (AbstractXmlInfoExtractor.__init__ text)).1
                        = Raise (KeyError key))))).
Proof.
  destruct (fromstring text) as [root|e] eqn:Hparse.
  2:{ split; left; exists e; (split; [done|]);
        unfold UserInfoExtractor.extract, UserGradesExtractor.extract;
        by rewrite (extract_unparsed _ _ _ _ Hparse). }
  destruct (AbstractXmlInfoExtractor._is_response_ok root) eqn:Hok.
  - pose proof (proj1 (is_response_ok_true root) Hok) as Hnf.
    rewrite (user_info_extract_ok _ _ _ Hparse Hok).
    rewrite (user_grades_extract_ok _ _ _ Hparse Hok). simpl.
    rewrite findall_exam_results.
    split; right; exists root; (split; [done|]); right; (split; [done|]).
    + unfold getitem, profile_attributes.
      destruct (attrib root !! "GivenName") as [g|] eqn:H1;
        [|right; exists "GivenName"; split_and!;
           [repeat constructor|done|done]].
      destruct (attrib root !! "FamilyName") as [f|] eqn:H2;
        [|right; exists "FamilyName"; split_and!;
           [repeat constructor|done|done]].
      destruct (attrib root !! "Email") as [m|] eqn:H3;
        [|right; exists "Email"; split_and!;
           [repeat constructor|done|done]].
      left. by exists g, f, m.
    + destruct (exam_results_cases (elements_at_path exam_result_path root))
        as [(rs & Hrs & HF)|(x & k & Hx & Hk & Hnone & Hr)].
      * left. exists rs. by rewrite Hrs.
      * right. exists x, k. by rewrite Hr.
  - pose proof (proj1 (is_response_ok_spec root) Hok) as Hf.
    unfold UserInfoExtractor.extract, UserGradesExtractor.extract.
    rewrite !(extract_fault _ _ _ _ Hparse Hok). simpl.
    split; right; exists root; (split; [done|]); by left.
Qed.

Lemma text_len_append (p t : string) :
  text_len (p +:+ t) = text_len p + text_len t.
Proof. induction p as [|c p IH]; simpl; [done|]. rewrite IH. lia. Qed.

(** X4.  A root tag of fewer than five characters is never a fault,
    however many bytes its characters take: [_is_response_ok] is true and
    neither extractor returns [None]. *)
Theorem short_tag_is_no_fault
    (fromstring : string → result Element) (text : string) (root : Element) :
  fromstring text = Return root →
  text_len (tag root) < 5 →
  AbstractXmlInfoExtractor._is_response_ok root = true
  ∧ (UserInfoExtractor.extract fromstring
       (AbstractXmlInfoExtractor.__init__ text)).1 ≠ Return None
  ∧ (UserGradesExtractor.extract fromstring
       (AbstractXmlInfoExtractor.__init__ text)).1 ≠ Return None.
Proof.
  intros Hparse Hshort.
  assert (Hok : AbstractXmlInfoExtractor._is_response_ok root = true).
  { apply is_response_ok_true. intros [prefix Hfault].
    rewrite Hfault, text_len_append in Hshort.
    change (text_len "Fault") with 5 in Hshort. lia. }
  split; [done|].
  rewrite (user_info_extract_ok _ _ _ Hparse Hok).
  rewrite (user_grades_extract_ok _ _ _ Hparse Hok). simpl.
  split.
  - by destruct (_ ≫= _).
  - by destruct (list_comprehension _ _).
Qed.

Lemma short_tag_is_no_fault_witness :
  (AbstractXmlInfoExtractor._is_response_ok TestServer.nameless_root = true
   ∧ (UserInfoExtractor.extract XmlFragment.fromstring
        (AbstractXmlInfoExtractor.__init__ TestServer.nameless)).1
     ≠ Return None
   ∧ (UserGradesExtractor.extract XmlFragment.fromstring
        (AbstractXmlInfoExtractor.__init__ TestServer.nameless)).1
     ≠ Return None)
  ∧ (String.length (tag TestServer.wide_root) = 6
     ∧ text_len (tag TestServer.wide_root) = 3
     ∧ AbstractXmlInfoExtractor._is_response_ok TestServer.wide_root = true).
Proof.
  split.
  - apply (short_tag_is_no_fault XmlFragment.fromstring TestServer.nameless
             TestServer.nameless_root).
    + vm_compute. reflexivity.
    + vm_compute. lia.
  - split_and!; [reflexivity|reflexivity|].
    apply (short_tag_is_no_fault (λ _, Return TestServer.wide_root)
             EmptyString TestServer.wide_root).
    + reflexivity.
    + vm_compute. lia.
Defined.

(** *** Which elements are mapped *)

Lemma elem_of_flat_map {A B} (f : A → list B) (l : list A) (y : B) :
  y ∈ flat_map f l ↔ ∃ x, x ∈ l ∧ y ∈ f x.
Proof.
  rewrite list_elem_of_In, in_flat_map. split.
  - intros (x & Hx & Hy). exists x. by rewrite !list_elem_of_In.
  - intros (x & Hx & Hy). exists x. by rewrite <- !list_elem_of_In.
Qed.

(** X5.  The grades mapper selects an element exactly when it is an
    ExamResult child of an ExamResults child of an EducationProgramme
    child of the root: exam results at any other place of the document
    are not mapped. *)
Theorem exam_result_selection (root x : Element) :
  x ∈ findall root "EducationProgramme/ExamResults/ExamResult"
  ↔ ∃ programme results : Element,
      programme ∈ children root ∧ tag programme = "EducationProgramme"
      ∧ results ∈ children programme ∧ tag results = "ExamResults"
      ∧ x ∈ children results ∧ tag x = "ExamResult".
Proof.
  rewrite findall_exam_results. unfold exam_result_path. simpl. split.
  - intros H.
    apply elem_of_flat_map in H as (programme & Hp & H).
    apply list_elem_of_filter in Hp as [Htp Hp].
    apply elem_of_flat_map in H as (results & Hr & H).
    apply list_elem_of_filter in Hr as [Htr Hr].
    apply elem_of_flat_map in H as (y & Hy & H).
    apply list_elem_of_filter in Hy as [Hty Hy].
    apply list_elem_of_singleton in H as ->.
    by exists programme, results.
  - intros (programme & results & Hp & Htp & Hr & Htr & Hx & Htx).
    apply elem_of_flat_map. exists programme.
    split; [by apply list_elem_of_filter|].
    apply elem_of_flat_map. exists results.
    split; [by apply list_elem_of_filter|].
    apply elem_of_flat_map. exists x.
    split; [by apply list_elem_of_filter|]. by apply list_elem_of_singleton.
Qed.

(** *** The outcomes of the token extraction *)

(** X6.  When the first LimitedAccess child of the root carries no
    Password attribute, the token extraction raises the lookup error of
    Password, even when a later LimitedAccess child carries one. *)
Theorem auth_token_without_password
    (fromstring : string → result Element) (text : string) (root : Element)
    (before after : list Element) (limited_access : Element) :
  fromstring text = Return root →
  children root = (before ++ limited_access :: after)%list →
  Forall (λ c, tag c ≠ "LimitedAccess") before →
  tag limited_access = "LimitedAccess" →
  attrib limited_access !! "Password" = None →
  Authenticator._extract_password_from_response_body fromstring text
  = Raise (KeyError "Password").
Proof.
  intros Hparse Hch Hbefore Hla Hpw.
  rewrite (extract_password_parsed _ _ _ Hparse).
  rewrite Hch, (head_filter_first _ _ _ _ Hbefore Hla).
  unfold getitem. by rewrite Hpw.
Qed.

Lemma auth_token_without_password_witness :
  Authenticator._extract_password_from_response_body XmlFragment.fromstring
    TestServer.blank_grant
  = Raise (KeyError "Password").
Proof.
  apply (auth_token_without_password XmlFragment.fromstring
           TestServer.blank_grant TestServer.blank_grant_root
           [] [mkElement "LimitedAccess" {[ "Password" := "tok123" ]} []]
           (mkElement "LimitedAccess" ∅ [])).
  - vm_compute. reflexivity.
  - reflexivity.
  - constructor.
  - reflexivity.
  - reflexivity.
Defined.

(** X7.  On a response the parser accepts, the token extraction has
    three outcomes only: [None] when no child of the root is a
    LimitedAccess element, the Password of the first such child, or the
    lookup error of Password when that child has none.  The read of
    [attrib] on an absent element never happens. *)
Theorem auth_token_outcomes
    (fromstring : string → result Element) (text : string) (root : Element) :
  fromstring text = Return root →
  (Forall (λ c, tag c ≠ "LimitedAccess") (children root)
   ∧ Authenticator._extract_password_from_response_body fromstring text
     = Return None)
  ∨ ∃ (before after : list Element) (limited_access : Element),
      children root = (before ++ limited_access :: after)%list
      ∧ Forall (λ c, tag c ≠ "LimitedAccess") before
      ∧ tag limited_access = "LimitedAccess"
      ∧ ((∃ token, attrib limited_access !! "Password" = Some token
                   ∧ Authenticator._extract_password_from_response_body
                       fromstring text = Return (Some token))
         ∨ (attrib limited_access !! "Password" = None
            ∧ Authenticator._extract_password_from_response_body
                fromstring text = Raise (KeyError "Password"))).
Proof.
  intros Hparse. rewrite (extract_password_parsed _ _ _ Hparse).
  induction (children root) as [|c l IH].
  - left. split; [constructor|done].
  - destruct (decide (tag c = "LimitedAccess")) as [Hc|Hc].
    + right. exists [], l, c. simpl. rewrite filter_cons_True by done. simpl.
      split_and!; [done|constructor|done|]. unfold getitem.
      destruct (attrib c !! "Password") as [token|] eqn:Hpw.
      * left. by exists token.
      * by right.
    + rewrite filter_cons_False by done.
      destruct IH as [[Hl Hr]|(before & after & la & Hsplit & Hb & Hla & Hr)].
      * left. split; [by constructor|done].
      * right. exists (c :: before), after, la. subst l.
        split_and!; [done|by constructor|done|done].
Qed.

Lemma auth_token_outcomes_witness :
  (Forall (λ c, tag c ≠ "LimitedAccess")
     (children TestServer.nested_grant_root)
   ∧ Authenticator._extract_password_from_response_body
       XmlFragment.fromstring TestServer.nested_grant
     = Return None)
  ∨ ∃ (before after : list Element) (limited_access : Element),
      children TestServer.nested_grant_root
      = (before ++ limited_access :: after)%list
      ∧ Forall (λ c, tag c ≠ "LimitedAccess") before
      ∧ tag limited_access = "LimitedAccess"
      ∧ ((∃ token, attrib limited_access !! "Password" = Some token
                   ∧ Authenticator._extract_password_from_response_body
                       XmlFragment.fromstring TestServer.nested_grant
                     = Return (Some token))
         ∨ (attrib limited_access !! "Password" = None
            ∧ Authenticator._extract_password_from_response_body
                XmlFragment.fromstring TestServer.nested_grant
              = Raise (KeyError "Password"))).
Proof.
  apply (auth_token_outcomes XmlFragment.fromstring TestServer.nested_grant
           TestServer.nested_grant_root).
  vm_compute. reflexivity.
Defined.

(** *** The facade: authentication *)

(** X8.  [authenticate] sends one POST to the authentication endpoint,
    with the application name and token of the session as headers and the
    student number and the password as form data.  When the request
    raises, or the token extraction on the response raises, the exception
    reaches the caller and the session is as before; otherwise the token
    extracted from the response, present or absent, is stored. *)
Theorem authenticate_exchange
    (fromstring : string → result Element) {World : Type}
    (post : string → gmap string string → gmap string string →
            M World requests.Response)
    (self : CampusNetApi.t) (password : string) (w w' : World)
    (outcome : result requests.Response) :
  post "https://auth.dtu.dk/dtu/mobilapp.jsp"
       {[ "X-appname" := CampusNetApi.app_name self;
          "X-token" := CampusNetApi.api_token self ]}
       {[ "username" := CampusNetApi.student_number self;
          "password" := password ]} w
  = (outcome, w') →
  CampusNetApi.authenticate fromstring post password (self, w)
  = match outcome with
    | Raise e => (Raise e, (self, w'))
    | Return response =>
        match Authenticator._extract_password_from_response_body fromstring
                (requests.text response) with
        | Return token =>
            (Return tt,
             (CampusNetApi.mk (CampusNetApi.app_name self)
                (CampusNetApi.api_token self)
                (CampusNetApi.student_number self) token, w'))
        | Raise e => (Raise e, (self, w'))
        end
    end.
Proof.
  intros Hpost.
  unfold CampusNetApi.authenticate, CampusNetApi._get_auth_token,
    CampusNetApi.get_self, CampusNetApi.set_auth_token,
    Authenticator.auth_token, on_snd, lift_result, mbind, M_bind, bind.
  simpl.
  change (Authenticator._headers _)
    with ({[ "X-appname" := CampusNetApi.app_name self;
             "X-token" := CampusNetApi.api_token self ]} : gmap string string).
  change (Authenticator._authentication_payload _ _)
    with ({[ "username" := CampusNetApi.student_number self;
             "password" := password ]} : gmap string string).
  rewrite Hpost. destruct outcome as [response|e]; [|done].
  by destruct (Authenticator._extract_password_from_response_body _ _).
Qed.

Lemma authenticate_exchange_witness :
  CampusNetApi.authenticate XmlFragment.fromstring TestServer.post_down
    "secret" TestServer.fresh
  = (Raise (RequestException "connection refused"),
     (TestServer.fresh.1, ["https://auth.dtu.dk/dtu/mobilapp.jsp"])).
Proof.
  apply (authenticate_exchange XmlFragment.fromstring TestServer.post_down
           TestServer.fresh.1 "secret" TestServer.fresh.2
           ["https://auth.dtu.dk/dtu/mobilapp.jsp"]
           (Raise (RequestException "connection refused"))).
  reflexivity.
Defined.

(** X9.  [is_authenticated] called after [authenticate] tells the outcome
    of that call alone: true when the exchange returned a token, false
    when it returned none, whatever token the session held before; when
    [authenticate] raises, the exception comes first. *)
Theorem authenticate_then_is_authenticated
    (fromstring : string → result Element) {World : Type}
    (post : string → gmap string string → gmap string string →
            M World requests.Response)
    (password : string) (s : CampusNetApi.t * World) :
  ((CampusNetApi.authenticate fromstring post password
      ≫= λ _, CampusNetApi.is_authenticated) s).1
  = (λ token : option string,
       match token with Some _ => true | None => false end)
    <$> (CampusNetApi._get_auth_token fromstring post password s).1.
Proof.
  unfold CampusNetApi.authenticate, CampusNetApi.is_authenticated,
    CampusNetApi.get_self, CampusNetApi.set_auth_token, mbind, M_bind, bind.
  destruct (CampusNetApi._get_auth_token fromstring post password s)
    as [[token|e] s']; done.
Qed.

(** *** The facade: sequences of operations *)

Section RunFacts.
Variable fromstring : string → result Element.
Context {World : Type}.
Variable post :
  string → gmap string string → gmap string string → M World requests.Response.
Variable get_ :
  string → gmap string string → string * option string →
  M World requests.Response.

Lemma step_identity (s : CampusNetApi.t * World) (op : CampusNetApi.operation) :
  CampusNetApi.app_name (CampusNetApi.step fromstring post get_ s op).1
  = CampusNetApi.app_name s.1
  ∧ CampusNetApi.api_token (CampusNetApi.step fromstring post get_ s op).1
    = CampusNetApi.api_token s.1
  ∧ CampusNetApi.student_number (CampusNetApi.step fromstring post get_ s op).1
    = CampusNetApi.student_number s.1.
Proof.
  destruct op as [password| | |];
    try (rewrite step_read_operation; [done|done]).
  unfold CampusNetApi.step, CampusNetApi.perform.
  rewrite authenticate_session.
  by destruct (CampusNetApi._get_auth_token _ _ _ _).1.
Qed.

End RunFacts.

(** X10.  No sequence of operations of the facade changes the identity
    of the session: the application name, the application token and the
    student number after it are those before it, whether the operations
    return or raise. *)
Theorem run_keeps_identity
    (fromstring : string → result Element) {World : Type}
    (post : string → gmap string string → gmap string string →
            M World requests.Response)
    (get_ : string → gmap string string → string * option string →
            M World requests.Response)
    (ops : list CampusNetApi.operation) (s : CampusNetApi.t * World) :
  CampusNetApi.app_name (CampusNetApi.run fromstring post get_ ops s).1
  = CampusNetApi.app_name s.1
  ∧ CampusNetApi.api_token (CampusNetApi.run fromstring post get_ ops s).1
    = CampusNetApi.api_token s.1
  ∧ CampusNetApi.student_number (CampusNetApi.run fromstring post get_ ops s).1
    = CampusNetApi.student_number s.1.
Proof.
  revert s. induction ops as [|op ops IH]; intros s; [done|].
  unfold CampusNetApi.run in *. simpl.
  destruct (IH (CampusNetApi.step fromstring post get_ s op)) as (H1 & H2 & H3).
  destruct (step_identity fromstring post get_ s op) as (G1 & G2 & G3).
  by rewrite H1, H2, H3.
Qed.

(** X11.  A sequence of operations without an authentication call leaves
    the session, token included, as it was: reading grades or the profile
    and asking whether the session is authenticated never store
    anything. *)
Theorem run_of_reads_keeps_session
    (fromstring : string → result Element) {World : Type}
    (post : string → gmap string string → gmap string string →
            M World requests.Response)
    (get_ : string → gmap string string → string * option string →
            M World requests.Response)
    (ops : list CampusNetApi.operation) (s : CampusNetApi.t * World) :
  Forall (λ op, ∀ password, op ≠ CampusNetApi.Authenticate password) ops →
  (CampusNetApi.run fromstring post get_ ops s).1 = s.1.
Proof.
  intros Hops. revert s.
  induction Hops as [|op ops Hop Hops IH]; intros s; [done|].
  unfold CampusNetApi.run in *. simpl.
  rewrite IH. by apply step_read_operation.
Qed.

Lemma run_of_reads_keeps_session_witness :
  (CampusNetApi.run XmlFragment.fromstring TestServer.post TestServer.get_
     [CampusNetApi.Grades; CampusNetApi.IsAuthenticated; CampusNetApi.UserInfo]
     TestServer.fresh).1
  = TestServer.fresh.1.
Proof.
  apply (run_of_reads_keeps_session XmlFragment.fromstring TestServer.post
           TestServer.get_).
  repeat constructor; discriminate.
Defined.

(** *** The facade: the read operations *)

Section ReadFacts.
Variable fromstring : string → result Element.
Context {World : Type}.
Variable get_ :
  string → gmap string string → string * option string →
  M World requests.Response.

(** A read of the facade: one GET below CurrentUser with the headers and
    the credentials of the session, then the extractor on the text of the
    response, run on an object of its own. *)
Lemma facade_read {T : Type}
    (extract : M AbstractXmlInfoExtractor.t (option T)) (path : string)
    (self : CampusNetApi.t) (w w' : World) (outcome : result requests.Response) :
  get_ ("https://www.campusnet.dtu.dk/data/CurrentUser/" +:+ path)
       {[ "X-appname" := CampusNetApi.app_name self;
          "X-token" := CampusNetApi.api_token self;
          "accept-language" := "da-DK";
          "X-Include-services-and-relations" := "true" ]}
       (CampusNetApi.student_number self, CampusNetApi.auth_token self) w
  = (outcome, w') →
  (CampusNetApi._client
     ≫= λ client, on_snd (UserClient.get get_ client path)
     ≫= λ response,
          on_new (AbstractXmlInfoExtractor.__init__ (requests.text response))
                 extract) (self, w)
  = match outcome with
    | Return response =>
        ((extract (AbstractXmlInfoExtractor.__init__
                     (requests.text response))).1, (self, w'))
    | Raise e => (Raise e, (self, w'))
    end.
Proof.
  intros Hget.
  unfold CampusNetApi._client, CampusNetApi.get_self, UserClient.get, on_snd,
    on_new, mbind, mret, M_bind, M_ret, bind, ret.
  simpl.
  change (UserClient._headers _)
    with ({[ "X-appname" := CampusNetApi.app_name self;
             "X-token" := CampusNetApi.api_token self;
             "accept-language" := "da-DK";
             "X-Include-services-and-relations" := "true" ]}
          : gmap string string).
  rewrite Hget. by destruct outcome.
Qed.

End ReadFacts.

(** X12.  [grades] and [user_info] each send one GET, to
    CurrentUser/Grades and CurrentUser/UserInfo, with the four headers of
    the session and with the student number and the token, present or
    absent, as credentials: there is no check that the session is
    authenticated.  The result is that of the extractor on the text of
    the response; an exception of the request reaches the caller; the
    session is unchanged in every case. *)
Theorem facade_reads
    (fromstring : string → result Element) {World : Type}
    (get_ : string → gmap string string → string * option string →
            M World requests.Response)
    (self : CampusNetApi.t) (w : World)
    (grades_outcome info_outcome : result requests.Response)
    (w_grades w_info : World) :
  get_ "https://www.campusnet.dtu.dk/data/CurrentUser/Grades"
       {[ "X-appname" := CampusNetApi.app_name self;
          "X-token" := CampusNetApi.api_token self;
          "accept-language" := "da-DK";
          "X-Include-services-and-relations" := "true" ]}
       (CampusNetApi.student_number self, CampusNetApi.auth_token self) w
  = (grades_outcome, w_grades) →
  get_ "https://www.campusnet.dtu.dk/data/CurrentUser/UserInfo"
       {[ "X-appname" := CampusNetApi.app_name self;
          "X-token" := CampusNetApi.api_token self;
          "accept-language" := "da-DK";
          "X-Include-services-and-relations" := "true" ]}
       (CampusNetApi.student_number self, CampusNetApi.auth_token self) w
  = (info_outcome, w_info) →
  CampusNetApi.grades fromstring get_ (self, w)
  = match grades_outcome with
    | Return response =>
        ((UserGradesExtractor.extract fromstring
            (AbstractXmlInfoExtractor.__init__ (requests.text response))).1,
         (self, w_grades))
    | Raise e => (Raise e, (self, w_grades))
    end
  ∧ CampusNetApi.user_info fromstring get_ (self, w)
    = match info_outcome with
      | Return response =>
          ((UserInfoExtractor.extract fromstring
              (AbstractXmlInfoExtractor.__init__ (requests.text response))).1,
           (self, w_info))
      | Raise e => (Raise e, (self, w_info))
      end.
Proof.
  intros Hgrades Hinfo. split.
  - exact (facade_read get_ (UserGradesExtractor.extract fromstring) "Grades"
             self w w_grades grades_outcome Hgrades).
  - exact (facade_read get_ (UserInfoExtractor.extract fromstring) "UserInfo"
             self w w_info info_outcome Hinfo).
Qed.

Lemma facade_reads_witness :
  CampusNetApi.grades XmlFragment.fromstring TestServer.get_ TestServer.fresh
  = ((UserGradesExtractor.extract XmlFragment.fromstring
        (AbstractXmlInfoExtractor.__init__ TestServer.grades)).1,
     (TestServer.fresh.1,
      ["https://www.campusnet.dtu.dk/data/CurrentUser/Grades"]))
  ∧ CampusNetApi.user_info XmlFragment.fromstring TestServer.get_
      TestServer.fresh
    = ((UserInfoExtractor.extract XmlFragment.fromstring
          (AbstractXmlInfoExtractor.__init__ TestServer.profile)).1,
       (TestServer.fresh.1,
        ["https://www.campusnet.dtu.dk/data/CurrentUser/UserInfo"])).
Proof.
  apply (facade_reads XmlFragment.fromstring TestServer.get_
           TestServer.fresh.1 TestServer.fresh.2
           (Return (requests.mkResponse TestServer.grades))
           (Return (requests.mkResponse TestServer.profile))).
  - reflexivity.
  - reflexivity.
Defined.

(** X13.  A fault answered to a read of the facade is not an error:
    [grades] and [user_info] return [None], raise nothing and leave the
    session as it was. *)
Theorem facade_fault_is_absent
    (fromstring : string → result Element) {World : Type}
    (get_ : string → gmap string string → string * option string →
            M World requests.Response)
    (self : CampusNetApi.t) (w : World)
    (grades_response info_response : requests.Response)
    (w_grades w_info : World) (grades_root info_root : Element) :
  get_ "https://www.campusnet.dtu.dk/data/CurrentUser/Grades"
       {[ "X-appname" := CampusNetApi.app_name self;
          "X-token" := CampusNetApi.api_token self;
          "accept-language" := "da-DK";
          "X-Include-services-and-relations" := "true" ]}
       (CampusNetApi.student_number self, CampusNetApi.auth_token self) w
  = (Return grades_response, w_grades) →
  get_ "https://www.campusnet.dtu.dk/data/CurrentUser/UserInfo"
       {[ "X-appname" := CampusNetApi.app_name self;
          "X-token" := CampusNetApi.api_token self;
          "accept-language" := "da-DK";
          "X-Include-services-and-relations" := "true" ]}
       (CampusNetApi.student_number self, CampusNetApi.auth_token self) w
  = (Return info_response, w_info) →
  fromstring (requests.text grades_response) = Return grades_root →
  fromstring (requests.text info_response) = Return info_root →
  ends_with (tag grades_root) "Fault" →
  ends_with (tag info_root) "Fault" →
  CampusNetApi.grades fromstring get_ (self, w)
  = (Return None, (self, w_grades))
  ∧ CampusNetApi.user_info fromstring get_ (self, w)
    = (Return None, (self, w_info)).
Proof.
  intros Hgrades Hinfo Hpg Hpi Hfg Hfi.
  apply is_response_ok_spec in Hfg, Hfi. split.
  - etrans;
      [exact (facade_read get_ (UserGradesExtractor.extract fromstring)
                "Grades" self w w_grades _ Hgrades)|].
    unfold UserGradesExtractor.extract.
    by rewrite (extract_fault _ _ _ _ Hpg Hfg).
  - etrans;
      [exact (facade_read get_ (UserInfoExtractor.extract fromstring)
                "UserInfo" self w w_info _ Hinfo)|].
    unfold UserInfoExtractor.extract.
    by rewrite (extract_fault _ _ _ _ Hpi Hfi).
Qed.

Lemma facade_fault_is_absent_witness :
  CampusNetApi.grades XmlFragment.fromstring TestServer.get_fault
    TestServer.fresh
  = (Return None,
     (TestServer.fresh.1,
      ["https://www.campusnet.dtu.dk/data/CurrentUser/Grades"]))
  ∧ CampusNetApi.user_info XmlFragment.fromstring TestServer.get_fault
      TestServer.fresh
    = (Return None,
       (TestServer.fresh.1,
        ["https://www.campusnet.dtu.dk/data/CurrentUser/UserInfo"])).
Proof.
  apply (facade_fault_is_absent XmlFragment.fromstring TestServer.get_fault
           TestServer.fresh.1 TestServer.fresh.2
           (requests.mkResponse TestServer.fault)
           (requests.mkResponse TestServer.fault)
           ["https://www.campusnet.dtu.dk/data/CurrentUser/Grades"]
           ["https://www.campusnet.dtu.dk/data/CurrentUser/UserInfo"]
           (mkElement "AccessFault" {[ "Code" := "401" ]} [])
           (mkElement "AccessFault" {[ "Code" := "401" ]} [])).
  - reflexivity.
  - reflexivity.
  - vm_compute. reflexivity.
  - vm_compute. reflexivity.
  - by exists "Access".
  - by exists "Access".
Defined.

(** *** The facade: a token in use *)

(** X14.  The token stored by [authenticate] is the credential of the
    next read: after an authentication call whose exchange returns a
    token, present or absent, [grades] sends its GET with the student
    number and that token, in the world the POST left, and the session
    keeps the token. *)
Theorem authenticate_then_grades
    (fromstring : string → result Element) {World : Type}
    (post : string → gmap string string → gmap string string →
            M World requests.Response)
    (get_ : string → gmap string string → string * option string →
            M World requests.Response)
    (self : CampusNetApi.t) (password : string) (w w1 w2 : World)
    (granted : requests.Response) (token : option string)
    (outcome : result requests.Response) :
  post "https://auth.dtu.dk/dtu/mobilapp.jsp"
       {[ "X-appname" := CampusNetApi.app_name self;
          "X-token" := CampusNetApi.api_token self ]}
       {[ "username" := CampusNetApi.student_number self;
          "password" := password ]} w
  = (Return granted, w1) →
  Authenticator._extract_password_from_response_body fromstring
    (requests.text granted) = Return token →
  get_ "https://www.campusnet.dtu.dk/data/CurrentUser/Grades"
       {[ "X-appname" := CampusNetApi.app_name self;
          "X-token" := CampusNetApi.api_token self;
          "accept-language" := "da-DK";
          "X-Include-services-and-relations" := "true" ]}
       (CampusNetApi.student_number self, token) w1
  = (outcome, w2) →
  (CampusNetApi.authenticate fromstring post password
     ≫= λ _, CampusNetApi.grades fromstring get_) (self, w)
  = match outcome with
    | Return response =>
        ((UserGradesExtractor.extract fromstring
            (AbstractXmlInfoExtractor.__init__ (requests.text response))).1,
         (CampusNetApi.mk (CampusNetApi.app_name self)
            (CampusNetApi.api_token self)
            (CampusNetApi.student_number self) token, w2))
    | Raise e =>
        (Raise e,
         (CampusNetApi.mk (CampusNetApi.app_name self)
            (CampusNetApi.api_token self)
            (CampusNetApi.student_number self) token, w2))
    end.
Proof.
  intros Hpost Htoken Hget.
  assert (Hauth :
    CampusNetApi.authenticate fromstring post password (self, w)
    = (Return tt,
       (CampusNetApi.mk (CampusNetApi.app_name self)
          (CampusNetApi.api_token self)
          (CampusNetApi.student_number self) token, w1))).
  { unfold CampusNetApi.authenticate, CampusNetApi._get_auth_token,
      CampusNetApi.get_self, CampusNetApi.set_auth_token,
      Authenticator.auth_token, on_snd, lift_result, mbind, M_bind, bind.
    simpl.
    change (Authenticator._headers _)
      with ({[ "X-appname" := CampusNetApi.app_name self;
               "X-token" := CampusNetApi.api_token self ]}
            : gmap string string).
    change (Authenticator._authentication_payload _ _)
      with ({[ "username" := CampusNetApi.student_number self;
               "password" := password ]} : gmap string string).
    by rewrite Hpost, Htoken. }
  unfold mbind at 1, M_bind at 1, bind at 1. rewrite Hauth.
  exact (facade_read get_ (UserGradesExtractor.extract fromstring) "Grades"
           (CampusNetApi.mk (CampusNetApi.app_name self)
              (CampusNetApi.api_token self)
              (CampusNetApi.student_number self) token)
           w1 w2 outcome Hget).
Qed.

Lemma authenticate_then_grades_witness :
  ((CampusNetApi.authenticate XmlFragment.fromstring TestServer.post "secret"
      ≫= λ _, CampusNetApi.grades XmlFragment.fromstring TestServer.get_)
     TestServer.fresh).2
  = (CampusNetApi.__init__ "MyApp" "app-token-123" "s123456" (Some "tok123"),
     ["https://www.campusnet.dtu.dk/data/CurrentUser/Grades";
      "https://auth.dtu.dk/dtu/mobilapp.jsp"]).
Proof.
  change TestServer.fresh with (TestServer.fresh.1, TestServer.fresh.2).
  rewrite (authenticate_then_grades XmlFragment.fromstring TestServer.post
             TestServer.get_ TestServer.fresh.1 "secret" TestServer.fresh.2
             ["https://auth.dtu.dk/dtu/mobilapp.jsp"]
             ["https://www.campusnet.dtu.dk/data/CurrentUser/Grades";
              "https://auth.dtu.dk/dtu/mobilapp.jsp"]
             (requests.mkResponse TestServer.granted) (Some "tok123")
             (Return (requests.mkResponse TestServer.grades))).
  - reflexivity.
  - reflexivity.
  - vm_compute. reflexivity.
  - reflexivity.
Defined.
